(** * Octave-convolution layers (oct_conv/octConvLayers.py)

    A shallow embedding of the three Keras layers of the repository,
    [OctConvInitialLayer], [OctConvBlockLayer] and [OctConvFinalLayer],
    and the properties of their constructors (the channel partition
    computed from [filters] and [alpha]) and of their [call] methods
    (the data flow between the two pathways and the shapes it yields).

    The layers only compose primitives of Keras: [Conv2D],
    [AveragePooling2D], [UpSampling2D] and [add].  The primitives are an
    interface here ([KerasBackend]); the layers are written once over the
    interface, and are run on symbolic tensors (the graph Keras builds) and
    on shapes (Keras' shape inference). *)

From Stdlib Require Import ZArith QArith Qround List String Bool Lia.
From Stdlib Require Import SpecFloat.
Import ListNotations.
Open Scope Z_scope.

(** ** Python results: a value or a raised exception *)

Inductive PyExc : Type :=
| IndexError
| ValueError
| OverflowError.

Inductive Py (A : Type) : Type :=
| Ok (a : A)
| Raise (e : PyExc).

Arguments Ok {A} a.
Arguments Raise {A} e.

Definition bind {A B : Type} (c : Py A) (k : A -> Py B) : Py B :=
match c with
| Ok a => k a
| Raise e => Raise e
end.

Notation "x <- c ;; k" := (bind c (fun x => k))
  (at level 61, c at next level, right associativity).
Notation "' pat <- c ;; k" := (bind c (fun x => match x with pat => k end))
  (at level 61, pat pattern, c at next level, right associativity).

(** [seq[i]] for a list or tuple and an index [i >= 0]. *)
Definition getitem {A : Type} (seq : list A) (i : nat) : Py A :=
match nth_error seq i with
| Some a => Ok a
| None => Raise IndexError
end.

(** ** Python floats: IEEE 754 binary64, round to nearest even *)

Module PyFloat.

Definition prec : Z := 53.
Definition emax : Z := 1024.

Definition float : Type := spec_float.

(** The float [m * 2^e], correctly rounded: how literals are written. *)
Definition dyadic (m e : Z) : float := binary_normalize prec emax m e false.

(** [float(n)] for a Python int: correctly rounded, [OverflowError] when
    [n] is beyond the range of a double. *)
Definition of_int (n : Z) : Py float :=
match binary_normalize prec emax n 0 false with
| S754_infinity _ => Raise OverflowError
| x => Ok x
end.

(** [x * y] on two floats. *)
Definition mul (x y : float) : float := SFmul prec emax x y.

(** [x * n] for a float [x] and an int [n]: the int is converted first. *)
Definition mul_int (x : float) (n : Z) : Py float :=
y <- of_int n ;;
Ok (mul x y).

(** [int(x)]: truncation toward zero; infinities and NaN raise. *)
Definition int (x : float) : Py Z :=
match x with
| S754_zero _ => Ok 0
| S754_infinity _ => Raise OverflowError
| S754_nan => Raise ValueError
| S754_finite s m e => Ok (cond_Zopp s (Z.shiftl (Zpos m) e))
end.

Definition is_finite (x : float) : bool :=
match x with
| S754_zero _ | S754_finite _ _ _ => true
| _ => false
end.

(** The rational number a finite float stands for (0 for the others). *)
Definition to_Q (x : float) : Q :=
match x with
| S754_finite s m e =>
    match e with
    | Zneg p => Qmake (cond_Zopp s (Zpos m)) (2 ^ p)
    | _ => inject_Z (cond_Zopp s (Zpos m * 2 ^ e))
    end
| _ => 0%Q
end.

(** A valid double between 0 and 1, as [alpha] is documented to be. *)
Definition in_unit_interval (x : float) : Prop :=
valid_binary prec emax x = true /\ is_finite x = true /\
(0 <= to_Q x)%Q /\ (to_Q x <= 1)%Q.

End PyFloat.

(** ** The Keras primitives the layers are built from *)

Inductive Padding : Type :=
| same
| valid.

Module Conv2D.

(** A [Conv2D] object.  [oid] stands for the identity of the object (the
    attribute it is bound to): two objects of one configuration own
    different weights. *)
Record t : Type := new {
  oid : string;
  filters : Z;
  kernel_size : Z * Z;
  strides : Z * Z;
  padding : Padding;
  dilation_rate : Z * Z;
  use_bias : bool;
  kernel_initializer : string;
  activation : string
}.

End Conv2D.

Module AveragePooling2D.

Record t : Type := mk {
  pool_size : Z * Z;
  strides : Z * Z;
  padding : Padding
}.

(** [AveragePooling2D()]: a 2x2 window, strides equal to the window. *)
Definition new : t :=
{| pool_size := (2, 2); strides := (2, 2); padding := valid |}.

End AveragePooling2D.

Module UpSampling2D.

Record t : Type := mk {
  size : Z * Z;
  interpolation : string
}.

(** [UpSampling2D(interpolation=...)]: the default factor (2, 2). *)
Definition new (interpolation : string) : t :=
{| size := (2, 2); interpolation := interpolation |}.

End UpSampling2D.

(** What a layer needs of the tensors it is called on. *)
Class KerasBackend (T : Type) : Type := {
  Conv2D_call : Conv2D.t -> T -> Py T;
  AveragePooling2D_call : AveragePooling2D.t -> T -> Py T;
  UpSampling2D_call : UpSampling2D.t -> T -> Py T;
  add : T -> T -> Py T
}.

(** *** Symbolic tensors: the graph of layer applications *)

Inductive Tensor : Type :=
| Input (name : string)
| Conv2D_out (layer : Conv2D.t) (x : Tensor)
| AveragePooling2D_out (layer : AveragePooling2D.t) (x : Tensor)
| UpSampling2D_out (layer : UpSampling2D.t) (x : Tensor)
| Add_out (x y : Tensor).

#[export] Instance symbolic : KerasBackend Tensor := {
  Conv2D_call layer x := Ok (Conv2D_out layer x);
  AveragePooling2D_call layer x := Ok (AveragePooling2D_out layer x);
  UpSampling2D_call layer x := Ok (UpSampling2D_out layer x);
  add x y := Ok (Add_out x y)
}.

(** *** Shapes: (batch, height, width, channels), channels last *)

Record Shape : Type := mkShape {
  batch : Z;
  height : Z;
  width : Z;
  channels : Z
}.

Definition Shape_eqb (a b : Shape) : bool :=
(batch a =? batch b) && (height a =? height b) &&
(width a =? width b) && (channels a =? channels b).

(** Keras' [conv_output_length]; [//] is floor division. *)
Definition conv_output_length (input_length filter_size : Z)
  (padding : Padding) (stride dilation : Z) : Z :=
let dilated_filter_size := filter_size + (filter_size - 1) * (dilation - 1) in
let output_length :=
  match padding with
  | same => input_length
  | valid => input_length - dilated_filter_size + 1
  end in
(output_length + stride - 1) / stride.

Definition Conv2D_shape (layer : Conv2D.t) (s : Shape) : Shape :=
{| batch := batch s;
   height := conv_output_length (height s) (fst (Conv2D.kernel_size layer))
               (Conv2D.padding layer) (fst (Conv2D.strides layer))
               (fst (Conv2D.dilation_rate layer));
   width := conv_output_length (width s) (snd (Conv2D.kernel_size layer))
               (Conv2D.padding layer) (snd (Conv2D.strides layer))
               (snd (Conv2D.dilation_rate layer));
   channels := Conv2D.filters layer |}.

Definition AveragePooling2D_shape (layer : AveragePooling2D.t) (s : Shape)
  : Shape :=
{| batch := batch s;
   height := conv_output_length (height s)
               (fst (AveragePooling2D.pool_size layer))
               (AveragePooling2D.padding layer)
               (fst (AveragePooling2D.strides layer)) 1;
   width := conv_output_length (width s)
               (snd (AveragePooling2D.pool_size layer))
               (AveragePooling2D.padding layer)
               (snd (AveragePooling2D.strides layer)) 1;
   channels := channels s |}.

Definition UpSampling2D_shape (layer : UpSampling2D.t) (s : Shape) : Shape :=
{| batch := batch s;
   height := fst (UpSampling2D.size layer) * height s;
   width := snd (UpSampling2D.size layer) * width s;
   channels := channels s |}.

(** The elementwise sum needs two addends of one shape; another pair is a
    shape-validation failure of the runtime. *)
Definition add_shape (a b : Shape) : Py Shape :=
if Shape_eqb a b then Ok a else Raise ValueError.

#[export] Instance shapes : KerasBackend Shape := {
  Conv2D_call layer s := Ok (Conv2D_shape layer s);
  AveragePooling2D_call layer s := Ok (AveragePooling2D_shape layer s);
  UpSampling2D_call layer s := Ok (UpSampling2D_shape layer s);
  add := add_shape
}.

(** ** The layers *)

(** Default arguments of the three constructors. *)
Definition default_kernel_size : Z * Z := (3, 3).
Definition default_strides : Z * Z := (1, 1).
Definition default_alpha : PyFloat.float := PyFloat.dyadic 1 (-1).
Definition default_padding : Padding := same.
Definition default_dilation : option (Z * Z) := None.
Definition default_bias : bool := false.
Definition default_activation : string := "relu".

(** [int(alpha * filters)] *)
Definition int_alpha_filters (alpha : PyFloat.float) (filters : Z) : Py Z :=
p <- PyFloat.mul_int alpha filters ;;
PyFloat.int p.

Module OctConvInitialLayer.

Record t : Type := mk {
  strides : Z * Z;
  conv2d_high_high : Conv2D.t;
  average_pooling2d_high_low : AveragePooling2D.t;
  conv2d_high_low : Conv2D.t
}.

Definition init (filters : Z) (kernel_size strides : Z * Z)
  (alpha : PyFloat.float) (padding : Padding) (dilation : option (Z * Z))
  (bias : bool) (activation : string) : Py t :=
let dilation := match dilation with None => (1, 1) | Some d => d end in
high_low_filters <- int_alpha_filters alpha filters ;;
let high_high_filters := filters - high_low_filters in
Ok {| strides := strides;
      conv2d_high_high :=
        Conv2D.new "conv2d_high_high" high_high_filters kernel_size (1, 1)
          padding dilation bias "he_normal" activation;
      average_pooling2d_high_low := AveragePooling2D.new;
      conv2d_high_low :=
        Conv2D.new "conv2d_high_low" high_low_filters kernel_size (1, 1)
          padding dilation bias "he_normal" activation |}.

Section Call.
Context {T : Type} `{KerasBackend T}.

Definition call (self : t) (inputs : T) : Py (T * T) :=
inputs <- (if fst (strides self) >? 1
           then AveragePooling2D_call AveragePooling2D.new inputs
           else Ok inputs) ;;
x_high <- Conv2D_call (conv2d_high_high self) inputs ;;
x_high_low <- AveragePooling2D_call (average_pooling2d_high_low self) inputs ;;
x_low <- Conv2D_call (conv2d_high_low self) x_high_low ;;
Ok (x_low, x_high).

End Call.

End OctConvInitialLayer.

Module OctConvBlockLayer.

Record t : Type := mk {
  strides : Z * Z;
  conv2d_high_high : Conv2D.t;
  conv2d_low_high : Conv2D.t;
  upsampling2d : UpSampling2D.t;
  conv2d_low_low : Conv2D.t;
  conv2d_high_low : Conv2D.t;
  average_pooling2d : AveragePooling2D.t
}.

Definition init (filters : Z) (kernel_size strides : Z * Z)
  (alpha : PyFloat.float) (padding : Padding) (dilation : option (Z * Z))
  (bias : bool) (activation : string) : Py t :=
let dilation := match dilation with None => (1, 1) | Some d => d end in
high_low_filters <- int_alpha_filters alpha filters ;;
let low_low_filters := high_low_filters in
let low_high_filters := filters - low_low_filters in
let high_high_filters := low_high_filters in
Ok {| strides := strides;
      conv2d_high_high :=
        Conv2D.new "conv2d_high_high" high_high_filters kernel_size (1, 1)
          padding dilation bias "he_normal" activation;
      conv2d_low_high :=
        Conv2D.new "conv2d_low_high" low_high_filters kernel_size (1, 1)
          padding dilation bias "he_normal" activation;
      upsampling2d := UpSampling2D.new "nearest";
      conv2d_low_low :=
        Conv2D.new "conv2d_low_low" low_low_filters kernel_size (1, 1)
          padding dilation bias "he_normal" activation;
      conv2d_high_low :=
        Conv2D.new "conv2d_high_low" high_low_filters kernel_size (1, 1)
          padding dilation bias "he_normal" activation;
      average_pooling2d := AveragePooling2D.new |}.

Section Call.
Context {T : Type} `{KerasBackend T}.

Definition call (self : t) (inputs : list T) : Py (T * T) :=
x_low <- getitem inputs 0 ;;
x_high <- getitem inputs 1 ;;
'(x_high, x_low) <-
  (if fst (strides self) >? 1
   then
     x_high <- AveragePooling2D_call (average_pooling2d self) x_high ;;
     x_low <- AveragePooling2D_call (average_pooling2d self) x_low ;;
     Ok (x_high, x_low)
   else Ok (x_high, x_low)) ;;
(* For High Freq outputs *)
x_high_high <- Conv2D_call (conv2d_high_high self) x_high ;;
x_low_high <- Conv2D_call (conv2d_low_high self) x_low ;;
x_low_high <- UpSampling2D_call (upsampling2d self) x_low_high ;;
(* For Low Freq Outputs *)
x_low_low <- Conv2D_call (conv2d_low_low self) x_low ;;
x_high_low <- AveragePooling2D_call (average_pooling2d self) x_high ;;
x_high_low <- Conv2D_call (conv2d_high_low self) x_high_low ;;
(* Merge Outputs *)
y_high <- add x_high_high x_low_high ;;
y_low <- add x_low_low x_high_low ;;
Ok (y_low, y_high).

End Call.

End OctConvBlockLayer.

Module OctConvFinalLayer.

Record t : Type := mk {
  strides : Z * Z;
  average_pooling2d : AveragePooling2D.t;
  conv2d_high_high : Conv2D.t;
  conv2d_low_high : Conv2D.t;
  upsampling2d : UpSampling2D.t
}.

Definition init (filters : Z) (kernel_size strides : Z * Z)
  (padding : Padding) (dilation : option (Z * Z))
  (bias : bool) (activation : string) : t :=
let dilation := match dilation with None => (1, 1) | Some d => d end in
{| strides := strides;
   average_pooling2d := AveragePooling2D.new;
   conv2d_high_high :=
     Conv2D.new "conv2d_high_high" filters kernel_size (1, 1)
       padding dilation bias "he_normal" activation;
   conv2d_low_high :=
     Conv2D.new "conv2d_low_high" filters kernel_size (1, 1)
       padding dilation bias "he_normal" activation;
   upsampling2d := UpSampling2D.new "nearest" |}.

Section Call.
Context {T : Type} `{KerasBackend T}.

Definition call (self : t) (inputs : list T) : Py T :=
x_low <- getitem inputs 0 ;;
x_high <- getitem inputs 1 ;;
'(x_high, x_low) <-
  (if fst (strides self) >? 1
   then
     x_high <- AveragePooling2D_call (average_pooling2d self) x_high ;;
     x_low <- AveragePooling2D_call (average_pooling2d self) x_low ;;
     Ok (x_high, x_low)
   else Ok (x_high, x_low)) ;;
x_high_high <- Conv2D_call (conv2d_high_high self) x_high ;;
x_low_high <- Conv2D_call (conv2d_low_high self) x_low ;;
x_low_high <- UpSampling2D_call (upsampling2d self) x_low_high ;;
x <- add x_high_high x_low_high ;;
Ok x.

End Call.

End OctConvFinalLayer.

(** ** The design as the specification words it

    The formulas of the specification (its sections 4.1 to 4.3), written
    over the same primitives; the theorems below compare the [call]
    methods with them. *)

Module Spec.

(** The options all convolutions of one layer share. *)
Record ConvOptions : Type := mkOptions {
  kernel_size : Z * Z;
  padding : Padding;
  dilation : Z * Z;
  bias : bool;
  activation : string
}.

Definition options (kernel_size : Z * Z) (padding : Padding)
  (dilation : option (Z * Z)) (bias : bool) (activation : string)
  : ConvOptions :=
mkOptions kernel_size padding
  (match dilation with None => (1, 1) | Some d => d end) bias activation.

(** The convolution of one path, with its own weights and [n] filters. *)
Definition conv (path : string) (n : Z) (o : ConvOptions) : Conv2D.t :=
Conv2D.new path n (kernel_size o) (1, 1) (padding o) (dilation o) (bias o)
  "he_normal" (activation o).

Section Formulas.
Context {T : Type} `{KerasBackend T}.
Variable o : ConvOptions.

Definition AveragePool2x (x : T) : Py T :=
AveragePooling2D_call AveragePooling2D.new x.

Definition Upsample2x (x : T) : Py T :=
UpSampling2D_call (UpSampling2D.new "nearest") x.

(** Same-resolution paths: high to high, low to low. *)
Definition Conv_same_high (x : T) (n : Z) : Py T :=
Conv2D_call (conv "conv2d_high_high" n o) x.

Definition Conv_same_low (x : T) (n : Z) : Py T :=
Conv2D_call (conv "conv2d_low_low" n o) x.

(** Cross-resolution paths: low to high, high to low. *)
Definition Conv_cross_low_high (x : T) (n : Z) : Py T :=
Conv2D_call (conv "conv2d_low_high" n o) x.

Definition Conv_cross_high_low (x : T) (n : Z) : Py T :=
Conv2D_call (conv "conv2d_high_low" n o) x.

(** Elementwise sum of two computed addends. *)
Definition plus (a b : Py T) : Py T :=
x <- a ;;
y <- b ;;
add x y.

(** 4.2, step 1 *)
Definition high_frequency_output (low high : T)
  (high_high_filters low_high_filters : Z) : Py T :=
plus (Conv_same_high high high_high_filters)
     (c <- Conv_cross_low_high low low_high_filters ;; Upsample2x c).

(** 4.2, step 2 *)
Definition low_frequency_output (low high : T)
  (low_low_filters high_low_filters : Z) : Py T :=
plus (Conv_same_low low low_low_filters)
     (p <- AveragePool2x high ;; Conv_cross_high_low p high_low_filters).

(** 4.3 *)
Definition final_merge (low high : T) (filters : Z) : Py T :=
plus (Conv_same_high high filters)
     (c <- Conv_cross_low_high low filters ;; Upsample2x c).

(** The optional pre-step of a pair: both pathways pooled when the stride
    is above 1. *)
Definition stride_prestep (strides : Z * Z) (low high : T) : Py (T * T) :=
if fst strides >? 1
then
  l <- AveragePool2x low ;;
  h <- AveragePool2x high ;;
  Ok (l, h)
else Ok (low, high).

End Formulas.


(** The invariant of a pathway pair (section 3). *)
Definition resolution_invariant (low high : Shape) : Prop :=
height high = 2 * height low /\ width high = 2 * width low.

End Spec.

(** A pair returned by one layer, passed as the [inputs] of the next. *)
Definition as_inputs {T : Type} (pair : T * T) : list T :=
[fst pair; snd pair].

(** The stages of a network [Initial -> Block*]: the pair after the
    initial layer and after each block, in order.  The last one is what
    the final layer receives. *)
Section Network.
Context {T : Type} `{KerasBackend T}.

Fixpoint block_stages (blocks : list OctConvBlockLayer.t) (pair : T * T)
  : Py (list (T * T)) :=
match blocks with
| [] => Ok []
| b :: bs =>
    pair' <- OctConvBlockLayer.call b (as_inputs pair) ;;
    rest <- block_stages bs pair' ;;
    Ok (pair' :: rest)
end.

Definition stages (initial : OctConvInitialLayer.t)
  (blocks : list OctConvBlockLayer.t) (x : T) : Py (list (T * T)) :=
pair <- OctConvInitialLayer.call initial x ;;
rest <- block_stages blocks pair ;;
Ok (pair :: rest).

Definition network (initial : OctConvInitialLayer.t)
  (blocks : list OctConvBlockLayer.t) (final : OctConvFinalLayer.t) (x : T)
  : Py T :=
trace <- stages initial blocks x ;;
pair <- getitem (rev trace) 0 ;;
OctConvFinalLayer.call final (as_inputs pair).

End Network.

(** ** Auxiliary notions for the statements *)

(** The length a convolution of stride 1 loses: none with [same]. *)
Definition conv_loss (kernel dilation : Z) (padding : Padding) : Z :=
match padding with
| same => 0
| valid => kernel + (kernel - 1) * (dilation - 1) - 1
end.

(** The pair a layer works on after its stride pre-step. *)
Definition prestep_shape (strides : Z * Z) (s : Shape) : Shape :=
if fst strides >? 1 then AveragePooling2D_shape AveragePooling2D.new s else s.

(** Blocks the constructor can build. *)
Definition built_by_init (block : OctConvBlockLayer.t) : Prop :=
exists filters kernel_size strides alpha padding dilation bias activation,
  OctConvBlockLayer.init filters kernel_size strides alpha padding dilation
    bias activation = Ok block.

Definition pair_invariant (pair : Shape * Shape) : Prop :=
Spec.resolution_invariant (fst pair) (snd pair).

(** A block with [same] padding and no stride pre-step accepts every pair
    that satisfies the invariant (and shares its batch size). *)
Definition plain_block (block : OctConvBlockLayer.t) : Prop :=
fst (OctConvBlockLayer.strides block) <= 1 /\
Conv2D.padding (OctConvBlockLayer.conv2d_high_high block) = same.


(** The layers the constructors build, once the low-pathway filter count
    is known: every convolution of a layer shares the options [o]. *)
Definition initial_layout (strides : Z * Z) (o : Spec.ConvOptions)
  (high_high_filters high_low_filters : Z) : OctConvInitialLayer.t :=
OctConvInitialLayer.mk strides
  (Spec.conv "conv2d_high_high" high_high_filters o)
  AveragePooling2D.new
  (Spec.conv "conv2d_high_low" high_low_filters o).

Definition block_layout (strides : Z * Z) (o : Spec.ConvOptions)
  (high_high_filters low_high_filters low_low_filters high_low_filters : Z)
  : OctConvBlockLayer.t :=
OctConvBlockLayer.mk strides
  (Spec.conv "conv2d_high_high" high_high_filters o)
  (Spec.conv "conv2d_low_high" low_high_filters o)
  (UpSampling2D.new "nearest")
  (Spec.conv "conv2d_low_low" low_low_filters o)
  (Spec.conv "conv2d_high_low" high_low_filters o)
  AveragePooling2D.new.

(** A symbolic tensor, pooled by [pool] when [pre] holds. *)
Definition pooled_if (pre : bool) (pool : AveragePooling2D.t) (x : Tensor)
  : Tensor :=
if pre then AveragePooling2D_out pool x else x.

(** Values the examples are run on. *)
Definition relu_3x3 : Spec.ConvOptions :=
Spec.options (3, 3) same None false "relu".

Definition low_8x8 : Shape := mkShape 1 8 8 32.
Definition high_16x16 : Shape := mkShape 1 16 16 32.
Definition image_32x32 : Shape := mkShape 1 32 32 3.
Definition image_33x33 : Shape := mkShape 1 33 33 3.

(** Truncation of a rational toward zero: what [int] does to the value of
    a finite float. *)
Definition Qtruncate (q : Q) : Z := Z.quot (Qnum q) (Zpos (Qden q)).

(** Floats that are zero or finite and not negative. *)
Definition nonneg_finite (x : PyFloat.float) : Prop :=
match x with
| S754_zero _ => True
| S754_finite s _ _ => s = false
| _ => False
end.



(** ** Notions for the further properties *)

(** The [dilation] argument of a constructor, with its default. *)
Definition dilation_or_default (dilation : option (Z * Z)) : Z * Z :=
match dilation with None => (1, 1) | Some d => d end.

(** Two shapes of one batch size, height and width. *)
Definition same_extent (a b : Shape) : Prop :=
batch a = batch b /\ height a = height b /\ width a = width b.

(** A block with [same] padding and a stride pre-step. *)
Definition strided_block (block : OctConvBlockLayer.t) : Prop :=
1 < fst (OctConvBlockLayer.strides block) /\
Conv2D.padding (OctConvBlockLayer.conv2d_high_high block) = same.

(** * Properties *)

(** ** Reasoning about results *)

Lemma bind_Ok {A B : Type} (c : Py A) (k : A -> Py B) (b : B) :
  bind c k = Ok b <-> exists a, c = Ok a /\ k a = Ok b.
Proof.
destruct c; cbn; split.
- eauto.
- intros (? & [= <-] & ?); assumption.
- discriminate.
- intros (? & [=] & _).
Qed.

(** Split a successful run into the successful calls it is made of. *)
Ltac bind_inv :=
  repeat match goal with
  | H : bind _ _ = Ok _ |- _ => apply bind_Ok in H; destruct H as (? & ? & H)
  | H : Ok _ = Ok _ |- _ => injection H as H; subst
  | H : (let '(_, _) := ?p in _) = Ok _ |- _ => destruct p
  | H : exists _, _ |- _ => destruct H
  | H : _ /\ _ |- _ => destruct H
  end.

(** Replay known successful calls in the goal. *)
Ltac run_calls :=
  cbn [bind];
  repeat match goal with
  | H : ?c = Ok _ |- context [?c] => rewrite H; cbn [bind]
  end.

(** ** What the constructors build *)

Lemma initial_init_inv filters kernel_size strides alpha padding dilation
  bias activation self :
  OctConvInitialLayer.init filters kernel_size strides alpha padding dilation
    bias activation = Ok self ->
  exists k, int_alpha_filters alpha filters = Ok k /\
  self = initial_layout strides
           (Spec.options kernel_size padding dilation bias activation)
           (filters - k) k.
Proof.
unfold OctConvInitialLayer.init. intros H. bind_inv.
eexists; split; [eassumption | reflexivity].
Qed.

Lemma block_init_inv filters kernel_size strides alpha padding dilation
  bias activation self :
  OctConvBlockLayer.init filters kernel_size strides alpha padding dilation
    bias activation = Ok self ->
  exists k, int_alpha_filters alpha filters = Ok k /\
  self = block_layout strides
           (Spec.options kernel_size padding dilation bias activation)
           (filters - k) (filters - k) k k.
Proof.
unfold OctConvBlockLayer.init. intros H. bind_inv.
eexists; split; [eassumption | reflexivity].
Qed.


Ltac unfold_spec :=
  unfold Spec.stride_prestep, Spec.high_frequency_output,
    Spec.low_frequency_output, Spec.final_merge, Spec.plus,
    Spec.Conv_same_high, Spec.Conv_same_low, Spec.Conv_cross_low_high,
    Spec.Conv_cross_high_low, Spec.Upsample2x, Spec.AveragePool2x,
    Spec.conv, Spec.options;
  cbn [Spec.kernel_size Spec.padding Spec.dilation Spec.bias
       Spec.activation].

(** ** Data flow of the block and of the final layer *)

Section DataFlow.
Context {T : Type} {B : KerasBackend T}.

Lemma block_call_spec strides o hh lh ll hl (low high y_low y_high : T) :
  OctConvBlockLayer.call (block_layout strides o hh lh ll hl) [low; high] =
    Ok (y_low, y_high) <->
  exists low' high',
    Spec.stride_prestep strides low high = Ok (low', high') /\
    Spec.high_frequency_output o low' high' hh lh = Ok y_high /\
    Spec.low_frequency_output o low' high' ll hl = Ok y_low.
Proof.
unfold OctConvBlockLayer.call, block_layout. unfold_spec.
cbn [getitem nth_error bind OctConvBlockLayer.strides
     OctConvBlockLayer.conv2d_high_high OctConvBlockLayer.conv2d_low_high
     OctConvBlockLayer.upsampling2d OctConvBlockLayer.conv2d_low_low
     OctConvBlockLayer.conv2d_high_low OctConvBlockLayer.average_pooling2d].
destruct (fst strides >? 1); split; intros Hc; bind_inv.
- do 2 eexists. split; [run_calls; reflexivity | ]. run_calls. auto.
- run_calls. reflexivity.
- do 2 eexists. split; [reflexivity | ]. run_calls. auto.
- run_calls. reflexivity.
Qed.

Lemma final_call_spec filters kernel_size strides padding dilation bias
  activation (low high y : T) :
  OctConvFinalLayer.call
    (OctConvFinalLayer.init filters kernel_size strides padding dilation bias
       activation) [low; high] = Ok y <->
  exists low' high',
    Spec.stride_prestep strides low high = Ok (low', high') /\
    Spec.final_merge
      (Spec.options kernel_size padding dilation bias activation)
      low' high' filters = Ok y.
Proof.
unfold OctConvFinalLayer.call, OctConvFinalLayer.init. unfold_spec.
cbn [getitem nth_error bind OctConvFinalLayer.strides
     OctConvFinalLayer.conv2d_high_high OctConvFinalLayer.conv2d_low_high
     OctConvFinalLayer.upsampling2d OctConvFinalLayer.average_pooling2d].
destruct (fst strides >? 1); split; intros Hc; bind_inv.
- do 2 eexists. split; [run_calls; reflexivity | ]. run_calls. auto.
- run_calls. reflexivity.
- do 2 eexists. split; [reflexivity | ]. run_calls. auto.
- run_calls. reflexivity.
Qed.

End DataFlow.

(** ** Shapes *)

Lemma Shape_eqb_eq (a b : Shape) : Shape_eqb a b = true <-> a = b.
Proof.
unfold Shape_eqb. destruct a, b; cbn.
rewrite !andb_true_iff, !Z.eqb_eq. split.
- intros [[[-> ->] ->] ->]. reflexivity.
- intros [= -> -> -> ->]. auto.
Qed.

Lemma add_shape_Ok (a b c : Shape) : add_shape a b = Ok c <-> a = b /\ c = a.
Proof.
unfold add_shape. destruct (Shape_eqb a b) eqn:E.
- apply Shape_eqb_eq in E. subst. split.
  + intros [= ->]. auto.
  + intros [_ ->]. reflexivity.
- split; [discriminate | ]. intros [-> _].
  assert (Shape_eqb b b = true) by (apply Shape_eqb_eq; reflexivity).
  congruence.
Qed.

Lemma conv_output_length_stride1 n k p d :
  conv_output_length n k p 1 d = n - conv_loss k d p.
Proof.
unfold conv_output_length, conv_loss. rewrite Z.div_1_r. destruct p; lia.
Qed.

Lemma pool_output_length n : conv_output_length n 2 valid 2 1 = n / 2.
Proof. unfold conv_output_length. f_equal. lia. Qed.

Lemma Conv2D_shape_conv path n o s :
  Conv2D_shape (Spec.conv path n o) s =
  mkShape (batch s)
    (height s - conv_loss (fst (Spec.kernel_size o)) (fst (Spec.dilation o))
                  (Spec.padding o))
    (width s - conv_loss (snd (Spec.kernel_size o)) (snd (Spec.dilation o))
                 (Spec.padding o))
    n.
Proof.
unfold Conv2D_shape, Spec.conv. cbn. rewrite !conv_output_length_stride1.
reflexivity.
Qed.

Lemma AveragePooling2D_shape_new s :
  AveragePooling2D_shape AveragePooling2D.new s =
  mkShape (batch s) (height s / 2) (width s / 2) (channels s).
Proof.
unfold AveragePooling2D_shape. cbn. rewrite !pool_output_length.
reflexivity.
Qed.

Lemma UpSampling2D_shape_new i s :
  UpSampling2D_shape (UpSampling2D.new i) s =
  mkShape (batch s) (2 * height s) (2 * width s) (channels s).
Proof. reflexivity. Qed.

Lemma prestep_shape_le strides s :
  fst strides <= 1 -> prestep_shape strides s = s.
Proof.
intros H. unfold prestep_shape.
destruct (Z.gtb_spec (fst strides) 1); [lia | reflexivity].
Qed.

Lemma prestep_shape_gt strides s :
  1 < fst strides ->
  prestep_shape strides s = AveragePooling2D_shape AveragePooling2D.new s.
Proof.
intros H. unfold prestep_shape.
destruct (Z.gtb_spec (fst strides) 1); [reflexivity | lia].
Qed.

Lemma stride_prestep_shapes strides (low high : Shape) :
  Spec.stride_prestep strides low high =
  Ok (prestep_shape strides low, prestep_shape strides high).
Proof.
unfold Spec.stride_prestep, prestep_shape. destruct (fst strides >? 1);
  reflexivity.
Qed.

(** Turn the calls of a formula into the shape rules of the primitives. *)
Ltac shapes_of_calls :=
  unfold_spec;
  cbn [bind Conv2D_call AveragePooling2D_call UpSampling2D_call add shapes];
  repeat match goal with
  | |- context [Conv2D.new ?p ?n (Spec.kernel_size ?o) (1, 1) (Spec.padding ?o)
                  (Spec.dilation ?o) (Spec.bias ?o) "he_normal"
                  (Spec.activation ?o)] =>
      change (Conv2D.new p n (Spec.kernel_size o) (1, 1) (Spec.padding o)
                (Spec.dilation o) (Spec.bias o) "he_normal"
                (Spec.activation o))
        with (Spec.conv p n o)
  end;
  rewrite ?add_shape_Ok, ?Conv2D_shape_conv, ?AveragePooling2D_shape_new,
    ?UpSampling2D_shape_new;
  cbn [batch height width channels].

(** The shapes a block built by the constructor returns, when it returns:
    both merges need their two addends to agree. *)
Lemma block_call_shapes strides o hh ll (low high y_low y_high : Shape) :
  OctConvBlockLayer.call (block_layout strides o hh hh ll ll) [low; high] =
    Ok (y_low, y_high) <->
  let low' := prestep_shape strides low in
  let high' := prestep_shape strides high in
  let lh := conv_loss (fst (Spec.kernel_size o)) (fst (Spec.dilation o))
              (Spec.padding o) in
  let lw := conv_loss (snd (Spec.kernel_size o)) (snd (Spec.dilation o))
              (Spec.padding o) in
  batch high' = batch low' /\
  height high' - lh = 2 * (height low' - lh) /\
  width high' - lw = 2 * (width low' - lw) /\
  height low' - lh = height high' / 2 - lh /\
  width low' - lw = width high' / 2 - lw /\
  y_high = mkShape (batch high') (height high' - lh) (width high' - lw) hh /\
  y_low = mkShape (batch low') (height low' - lh) (width low' - lw) ll.
Proof.
rewrite block_call_spec. cbv zeta.
split.
- intros (low' & high' & Hpre & Hhigh & Hlow).
  rewrite stride_prestep_shapes in Hpre. injection Hpre as <- <-.
  revert Hhigh Hlow. shapes_of_calls.
  intros [[= H1 H2 H3] ->] [[= H4 H5 H6] ->]. repeat split; auto; try lia.
  all: f_equal; lia.
- intros (Hb & H1 & H2 & H3 & H4 & -> & ->).
  do 2 eexists. split; [apply stride_prestep_shapes | ].
  shapes_of_calls.
  repeat split; f_equal; lia.
Qed.

Lemma final_merge_shapes o n (low high y : Shape) :
  Spec.final_merge o low high n = Ok y <->
  let lh := conv_loss (fst (Spec.kernel_size o)) (fst (Spec.dilation o))
              (Spec.padding o) in
  let lw := conv_loss (snd (Spec.kernel_size o)) (snd (Spec.dilation o))
              (Spec.padding o) in
  batch high = batch low /\
  height high - lh = 2 * (height low - lh) /\
  width high - lw = 2 * (width low - lw) /\
  y = mkShape (batch high) (height high - lh) (width high - lw) n.
Proof.
cbv zeta. shapes_of_calls. split.
- intros [[= H1 H2 H3] ->]. auto.
- intros (H1 & H2 & H3 & ->). split; [f_equal; lia | reflexivity].
Qed.

Lemma initial_call_shapes strides o hh hl (x : Shape) :
  OctConvInitialLayer.call (initial_layout strides o hh hl) x =
  let x' := prestep_shape strides x in
  let lh := conv_loss (fst (Spec.kernel_size o)) (fst (Spec.dilation o))
              (Spec.padding o) in
  let lw := conv_loss (snd (Spec.kernel_size o)) (snd (Spec.dilation o))
              (Spec.padding o) in
  Ok (mkShape (batch x') (height x' / 2 - lh) (width x' / 2 - lw) hl,
      mkShape (batch x') (height x' - lh) (width x' - lw) hh).
Proof.
unfold OctConvInitialLayer.call, prestep_shape, initial_layout.
cbn [OctConvInitialLayer.strides OctConvInitialLayer.conv2d_high_high
     OctConvInitialLayer.average_pooling2d_high_low
     OctConvInitialLayer.conv2d_high_low].
destruct (fst strides >? 1); cbv zeta; shapes_of_calls; reflexivity.
Qed.

Lemma even_half n : Z.even n = true -> n = 2 * (n / 2).
Proof.
intros H. apply Z.even_spec in H. destruct H as [m ->].
rewrite Z.mul_comm, Z.div_mul by lia. lia.
Qed.

Lemma built_block_inv block :
  built_by_init block ->
  exists strides o hh ll,
  block = block_layout strides o hh hh ll ll.
Proof.
intros (filters & ks & strides & alpha & padding & dilation & bias & act & H).
apply block_init_inv in H. destruct H as (k & _ & ->).
do 4 eexists. reflexivity.
Qed.

(** Whatever pair it is given, a block that returns, returns a pair whose
    high pathway has twice the height and width of the low one. *)
Lemma block_call_invariant block (pair pair' : Shape * Shape) :
  built_by_init block ->
  OctConvBlockLayer.call block (as_inputs pair) = Ok pair' ->
  pair_invariant pair' /\ batch (snd pair') = batch (fst pair').
Proof.
intros Hb Hcall. apply built_block_inv in Hb.
destruct Hb as (strides & o & hh & ll & ->). destruct pair', pair.
apply block_call_shapes in Hcall. cbv zeta in Hcall.
destruct Hcall as (Hb & H1 & H2 & H3 & H4 & -> & ->).
unfold pair_invariant, Spec.resolution_invariant. cbn. auto.
Qed.

Lemma block_stages_invariant blocks : forall (pair : Shape * Shape) trace,
  Forall built_by_init blocks ->
  block_stages blocks pair = Ok trace ->
  Forall pair_invariant trace.
Proof.
induction blocks as [ | b bs IH]; intros pair trace Hb Hrun;
  cbn [block_stages] in Hrun.
- injection Hrun as <-. constructor.
- inversion Hb; subst.
  apply bind_Ok in Hrun. destruct Hrun as (pair' & Hcall & Hrun).
  apply bind_Ok in Hrun. destruct Hrun as (rest & Hrest & [= <-]).
  constructor.
  + eapply block_call_invariant; eassumption.
  + eapply IH; eassumption.
Qed.

Lemma plain_block_returns block (pair : Shape * Shape) :
  built_by_init block -> plain_block block ->
  pair_invariant pair -> batch (snd pair) = batch (fst pair) ->
  exists pair', OctConvBlockLayer.call block (as_inputs pair) = Ok pair'.
Proof.
intros Hb [Hs Hp] [Hh Hw] Hbatch. apply built_block_inv in Hb.
destruct Hb as (strides & o & hh & ll & ->). destruct pair as [low high].
cbn [fst snd OctConvBlockLayer.strides OctConvBlockLayer.conv2d_high_high
     Conv2D.padding Spec.conv block_layout] in *.
eexists (_, _). apply block_call_shapes. cbv zeta.
unfold prestep_shape. destruct (Z.gtb_spec (fst strides) 1); [lia | ].
cbv beta iota. cbn [fst snd]. rewrite Hp. cbn [conv_loss]. rewrite Hh, Hw.
rewrite !(Z.mul_comm 2), !Z.div_mul by lia.
repeat split; auto; lia.
Qed.

Lemma plain_block_stages_return blocks : forall (pair : Shape * Shape),
  Forall built_by_init blocks -> Forall plain_block blocks ->
  pair_invariant pair -> batch (snd pair) = batch (fst pair) ->
  exists trace, block_stages blocks pair = Ok trace.
Proof.
induction blocks as [ | b bs IH]; intros pair Hb Hp Hinv Hbatch;
  cbn [block_stages].
- eexists; reflexivity.
- inversion Hb; subst. inversion Hp; subst.
  destruct (plain_block_returns b pair) as [pair' Hcall]; auto.
  rewrite Hcall. cbn [bind].
  destruct (block_call_invariant b pair pair') as [Hinv' Hbatch']; auto.
  destruct (IH pair') as [trace Htrace]; auto.
  rewrite Htrace. eexists; reflexivity.
Qed.

(** ** Python floats: when [int(alpha * filters)] is defined, and its value *)

Module PyFloatFacts.
Import PyFloat.

Lemma Zdigits2_log2 p : Zdigits2 (Zpos p) = Z.log2 (Zpos p) + 1.
Proof.
assert (H : forall q, digits2_pos q = Pos.size q)
  by (induction q; cbn; congruence).
destruct p; cbn; rewrite ?H; lia.
Qed.

Lemma Zdigits2_nonneg z : 0 <= z -> 0 <= Zdigits2 z.
Proof. destruct z; cbn; lia. Qed.


Lemma Zdigits2_lt_pow2 p n : 0 <= n -> Zpos p < 2 ^ n -> Zdigits2 (Zpos p) <= n.
Proof.
intros Hn H. rewrite Zdigits2_log2.
apply Z.log2_lt_pow2 in H; lia.
Qed.


Lemma Zdigits2_succ z : 0 <= z -> Zdigits2 (z + 1) <= Zdigits2 z + 1.
Proof.
intros Hz. destruct z as [ | p | p]; [cbn; lia | | lia].
change (Zpos p + 1) with (Zpos (p + 1)). rewrite !Zdigits2_log2.
rewrite Pos2Z.inj_add.
pose proof (Z.log2_succ_le (Zpos p)). unfold Z.succ in *. lia.
Qed.

Lemma digits2_pos_iter_xO p k :
  Zpos (digits2_pos (Pos.iter xO p k)) = Zpos (digits2_pos p) + Zpos k.
Proof.
induction k using Pos.peano_ind.
- cbn. lia.
- rewrite Pos.iter_succ. cbn [digits2_pos]. lia.
Qed.

(** One step of the right shift drops one binary digit. *)
Lemma shr_1_digits mrs :
  0 <= shr_m mrs ->
  0 <= shr_m (shr_1 mrs) /\
  Zdigits2 (shr_m (shr_1 mrs)) = Z.max 0 (Zdigits2 (shr_m mrs) - 1).
Proof.
destruct mrs as [m r s]. cbn [shr_m]. intros Hm.
destruct m as [ | [p | p | ] | p];
  cbn [shr_1 shr_m Zdigits2 digits2_pos orb]; lia.
Qed.

Lemma iter_shr_1_digits p : forall mrs,
  0 <= shr_m mrs ->
  0 <= shr_m (iter_pos shr_1 p mrs) /\
  Zdigits2 (shr_m (iter_pos shr_1 p mrs)) =
  Z.max 0 (Zdigits2 (shr_m mrs) - Zpos p).
Proof.
induction p as [p IH | p IH | ]; intros mrs Hm; cbn [iter_pos].
- destruct (shr_1_digits mrs Hm) as [H0 E0].
  destruct (IH _ H0) as [H1 E1]. destruct (IH _ H1) as [H2 E2].
  split; [assumption | ]. rewrite E2, E1, E0. lia.
- destruct (IH _ Hm) as [H1 E1]. destruct (IH _ H1) as [H2 E2].
  split; [assumption | ]. rewrite E2, E1. lia.
- apply shr_1_digits; assumption.
Qed.

Lemma shr_digits mrs e n :
  0 <= shr_m mrs ->
  0 <= shr_m (fst (shr mrs e n)) /\
  snd (shr mrs e n) = e + Z.max 0 n /\
  Zdigits2 (shr_m (fst (shr mrs e n))) =
  Z.max 0 (Zdigits2 (shr_m mrs) - Z.max 0 n).
Proof.
intros Hm. pose proof (Zdigits2_nonneg _ Hm).
destruct n as [ | p | p]; cbn [shr fst snd]; try (repeat split; lia).
destruct (iter_shr_1_digits p mrs Hm) as [H1 E1].
repeat split; try assumption; lia.
Qed.

Lemma round_nearest_even_bounds m l :
  m <= round_nearest_even m l <= m + 1.
Proof.
unfold round_nearest_even. destruct l as [ | [ | | ]];
  try destruct (Z.even m); lia.
Qed.

Lemma Zdigits2_mono a b : 0 <= a <= b -> Zdigits2 a <= Zdigits2 b.
Proof.
intros [Ha Hab]. destruct a as [ | p | p]; [ | | lia].
- apply Zdigits2_nonneg. lia.
- destruct b as [ | q | q]; try lia.
  rewrite !Zdigits2_log2. pose proof (Z.log2_le_mono (Zpos p) (Zpos q)). lia.
Qed.


(** Rounding a mantissa of magnitude at most [2^1023] never overflows. *)
Lemma binary_round_aux_finite s m e :
  Zdigits2 (Zpos m) + e <= 1023 -> e <= 971 ->
  match binary_round_aux prec emax s (Zpos m) e loc_Exact with
  | S754_zero s' => s' = s
  | S754_finite s' m' e' =>
      s' = s /\ e' <= 971 /\
      Zdigits2 (Zpos m') + e' <= Z.max (Zdigits2 (Zpos m) + e) (-1074) + 1
  | _ => False
  end.
Proof.
intros HD He. unfold binary_round_aux, shr_fexp.
set (d := Zdigits2 (Zpos m)) in *.
assert (Hd : 0 < d) by (unfold d; cbn; lia).
set (r0 := shr_record_of_loc (Zpos m) loc_Exact).
set (n1 := fexp prec emax (d + e) - e).
destruct (shr_digits r0 e n1) as (H1 & E1 & D1); [cbn; lia | ].
destruct (shr r0 e n1) as [mrs' e']. cbn [fst snd] in H1, E1, D1.
change (shr_m r0) with (Zpos m) in D1. fold d in D1.
set (m2 := round_nearest_even (shr_m mrs') (loc_of_shr_record mrs')).
pose proof (round_nearest_even_bounds (shr_m mrs') (loc_of_shr_record mrs'))
  as Hm2. fold m2 in Hm2.
assert (H2 : 0 <= m2) by lia.
assert (D2 : Zdigits2 m2 <= Zdigits2 (shr_m mrs') + 1).
{ etransitivity; [apply (Zdigits2_mono m2 (shr_m mrs' + 1)); lia | ].
  apply Zdigits2_succ; assumption. }
set (n2 := fexp prec emax (Zdigits2 m2 + e') - e').
destruct (shr_digits (shr_record_of_loc m2 loc_Exact) e' n2)
  as (H3 & E3 & D3); [cbn; lia | ].
destruct (shr (shr_record_of_loc m2 loc_Exact) e' n2) as [mrs'' e''].
cbn [fst snd] in H3, E3, D3. cbn [shr_record_of_loc shr_m] in D3.
pose proof (Zdigits2_nonneg _ H2) as Hd2.
unfold fexp, emin, prec, emax in n1, n2.
destruct (shr_m mrs'') as [ | m3 | m3] eqn:Em3; [reflexivity | | lia].
assert (Hd3 : 0 < Zdigits2 (Zpos m3)) by (cbn; lia).
assert (He'' : e'' <= 971) by (subst n1 n2; lia).
change (emax - prec) with 971.
destruct (Z.leb_spec e'' 971); [ | lia].
repeat split; [assumption | ]. subst n1 n2. lia.
Qed.

(** [float(n)] is defined for a positive int below [2^1000]. *)
Lemma of_int_finite n :
  0 < n < 2 ^ 1000 ->
  exists m e, of_int n = Ok (S754_finite false m e) /\
              e <= 971 /\ Zdigits2 (Zpos m) + e <= 1001.
Proof.
intros [Hn Hlt]. destruct n as [ | p | p]; try lia.
unfold of_int, binary_normalize, binary_round.
assert (Hp : Zdigits2 (Zpos p) <= 1000) by (apply Zdigits2_lt_pow2; lia).
assert (Hp0 : 0 < Zdigits2 (Zpos p)) by (cbn; lia).
cbn [Zdigits2] in Hp, Hp0.
set (d := Zpos (digits2_pos p)) in *.
unfold shl_align.
assert (Haux : forall mz ez, Zdigits2 (Zpos mz) + ez = d -> ez <= 0 ->
  exists m e,
    match binary_round_aux prec emax false (Zpos mz) ez loc_Exact with
    | S754_infinity _ => Raise OverflowError
    | x => Ok x
    end = Ok (S754_finite false m e) /\
    e <= 971 /\ Zdigits2 (Zpos m) + e <= 1001).
{ intros mz ez HD Hez.
  pose proof (binary_round_aux_finite false mz ez) as H.
  rewrite HD in H. specialize (H ltac:(lia) ltac:(lia)).
  destruct (binary_round_aux prec emax false (Zpos mz) ez loc_Exact)
    as [s' | s' | | s' m' e'] eqn:E; try contradiction.
  - (* a positive int does not round to zero *)
    exfalso. revert E. unfold binary_round_aux, shr_fexp.
    rewrite HD.
    set (r0 := shr_record_of_loc (Zpos mz) loc_Exact).
    set (n1 := fexp prec emax d - ez).
    destruct (shr_digits r0 ez n1) as (H1 & E1 & D1); [cbn; lia | ].
    destruct (shr r0 ez n1) as [mrs' e']. cbn [fst snd] in H1, E1, D1.
    change (shr_m r0) with (Zpos mz) in D1.
    set (m2 := round_nearest_even (shr_m mrs') (loc_of_shr_record mrs')).
    pose proof (round_nearest_even_bounds (shr_m mrs')
                  (loc_of_shr_record mrs')) as Hm2. fold m2 in Hm2.
    assert (Hpos1 : 0 < Zdigits2 (shr_m mrs')).
    { rewrite D1. unfold n1, fexp, emin, prec, emax. lia. }
    assert (Hm1 : 0 < shr_m mrs')
      by (destruct (shr_m mrs'); cbn in Hpos1; lia).
    assert (D2 : Zdigits2 (shr_m mrs') <= Zdigits2 m2)
      by (apply Zdigits2_mono; lia).
    assert (D2' : Zdigits2 m2 <= Zdigits2 (shr_m mrs') + 1).
    { etransitivity; [apply (Zdigits2_mono m2 (shr_m mrs' + 1)); lia | ].
      apply Zdigits2_succ; assumption. }
    set (n2 := fexp prec emax (Zdigits2 m2 + e') - e').
    destruct (shr_digits (shr_record_of_loc m2 loc_Exact) e' n2)
      as (H3 & E3 & D3); [cbn; lia | ].
    destruct (shr (shr_record_of_loc m2 loc_Exact) e' n2) as [mrs'' e''].
    cbn [fst snd] in H3, E3, D3. cbn [shr_record_of_loc shr_m] in D3.
    assert (Hpos3 : 0 < Zdigits2 (shr_m mrs'')).
    { rewrite D3. unfold n2, n1, fexp, emin, prec, emax in *. lia. }
    destruct (shr_m mrs'') as [ | m3 | m3]; cbn in Hpos3; try lia.
    destruct (e'' <=? emax - prec); discriminate.
  - destruct H as (-> & He & Hd). exists m', e'. repeat split; lia. }
destruct (fexp prec emax (d + 0) - 0) as [ | k | k] eqn:Ek.
- apply Haux; cbn [Zdigits2]; fold d; lia.
- apply Haux; cbn [Zdigits2]; fold d; lia.
- apply Haux.
  + cbn [Zdigits2]. rewrite digits2_pos_iter_xO. fold d.
    unfold fexp, emin, prec, emax in *. lia.
  + unfold fexp, emin, prec, emax in *. lia.
Qed.




Lemma nonneg_finite_is_finite x : nonneg_finite x -> is_finite x = true.
Proof. destruct x; cbn; try contradiction; reflexivity. Qed.





(** [int] of a finite float is its value truncated toward zero. *)
Lemma int_truncate x : is_finite x = true -> int x = Ok (Qtruncate (to_Q x)).
Proof.
destruct x as [s | s | | s m e]; try discriminate; intros _; [reflexivity | ].
cbn [int to_Q]. f_equal. unfold Qtruncate. destruct e as [ | p | p].
- cbn [inject_Z Qnum Qden]. rewrite Z.quot_1_r, Z.shiftl_0_r.
  rewrite Z.pow_0_r, Z.mul_1_r. reflexivity.
- cbn [inject_Z Qnum Qden]. rewrite Z.quot_1_r.
  rewrite Z.shiftl_mul_pow2 by lia. reflexivity.
- cbn [Qnum Qden]. change (Z.shiftl (Zpos m) (Zneg p))
    with (Z.shiftr (Zpos m) (Zpos p)).
  rewrite Z.shiftr_div_pow2 by lia. rewrite Pos2Z.inj_pow.
  destruct s; cbn [cond_Zopp].
  + change (Zneg m) with (- Zpos m). rewrite Z.quot_opp_l.
    * rewrite Z.quot_div_nonneg; [reflexivity | lia | ].
      apply Z.pow_pos_nonneg; lia.
    * pose proof (Z.pow_pos_nonneg 2 (Zpos p)). lia.
  + rewrite Z.quot_div_nonneg; [reflexivity | lia | ].
    apply Z.pow_pos_nonneg; lia.
Qed.





Lemma int_Ok_finite x k : int x = Ok k -> is_finite x = true.
Proof. destruct x; cbn; intros H; try discriminate; reflexivity. Qed.



End PyFloatFacts.

(** ** The block: how the two pathways are mixed *)

(** C1, as amended.  A block built by the constructor first applies its
    stride pre-step to both incoming pathways (each one average-pooled by 2
    when [strides[0] > 1], left as it is otherwise).  On the resulting
    (low, high) it returns the pair (low, high) whose high-frequency output
    is the sum of the same-resolution convolution of high and of the
    upsampled cross convolution of low, both with [filters - k] filters,
    and whose low-frequency output is the sum of the same-resolution
    convolution of low and of the cross convolution of the pooled high,
    both with [k = int(alpha * filters)] filters.  The call returns exactly
    when these formulas do. *)
Theorem C1_block_mixes_pathways_after_prestep :
  forall (T : Type) (B : KerasBackend T) filters kernel_size strides alpha
    padding dilation bias activation self,
  OctConvBlockLayer.init filters kernel_size strides alpha padding dilation
    bias activation = Ok self ->
  exists k, int_alpha_filters alpha filters = Ok k /\
  forall (low high y_low y_high : T),
  OctConvBlockLayer.call self [low; high] = Ok (y_low, y_high) <->
  exists low' high',
    Spec.stride_prestep strides low high = Ok (low', high') /\
    Spec.high_frequency_output
      (Spec.options kernel_size padding dilation bias activation)
      low' high' (filters - k) (filters - k) = Ok y_high /\
    Spec.low_frequency_output
      (Spec.options kernel_size padding dilation bias activation)
      low' high' k k = Ok y_low.
Proof.
intros * Hinit. apply block_init_inv in Hinit.
destruct Hinit as (k & Hk & ->). exists k. split; [exact Hk | ].
intros low high y_low y_high. apply block_call_spec.
Qed.

Lemma C1_witness_default_block :
  OctConvBlockLayer.init 64 default_kernel_size default_strides default_alpha
    default_padding default_dilation default_bias default_activation =
  Ok (block_layout (1, 1) relu_3x3 32 32 32 32) /\
  exists k, int_alpha_filters default_alpha 64 = Ok k /\
  forall (low high y_low y_high : Shape),
  OctConvBlockLayer.call (block_layout (1, 1) relu_3x3 32 32 32 32)
    [low; high] = Ok (y_low, y_high) <->
  exists low' high',
    Spec.stride_prestep default_strides low high = Ok (low', high') /\
    Spec.high_frequency_output relu_3x3 low' high' (64 - k) (64 - k) =
      Ok y_high /\
    Spec.low_frequency_output relu_3x3 low' high' k k = Ok y_low.
Proof.
split; [reflexivity | ].
apply (C1_block_mixes_pathways_after_prestep Shape shapes 64
         default_kernel_size default_strides default_alpha default_padding
         default_dilation default_bias default_activation).
reflexivity.
Defined.

(** C1 as stated fails for a block with [strides=(2, 2)]: on the pair
    (8x8, 16x16) the block returns (4x4, 8x8), the formulas of the claim
    applied to the incoming pair give (8x8, 16x16). *)
Lemma C1_counterexample_strided_block :
  OctConvBlockLayer.init 64 (3, 3) (2, 2) default_alpha same None false
    "relu" = Ok (block_layout (2, 2) relu_3x3 32 32 32 32) /\
  OctConvBlockLayer.call (block_layout (2, 2) relu_3x3 32 32 32 32)
    [low_8x8; high_16x16] = Ok (mkShape 1 4 4 32, mkShape 1 8 8 32) /\
  Spec.high_frequency_output relu_3x3 low_8x8 high_16x16 32 32 =
    Ok (mkShape 1 16 16 32) /\
  Spec.low_frequency_output relu_3x3 low_8x8 high_16x16 32 32 =
    Ok (mkShape 1 8 8 32) /\
  (mkShape 1 4 4 32, mkShape 1 8 8 32) <>
  (mkShape 1 8 8 32, mkShape 1 16 16 32).
Proof. repeat split; try reflexivity. discriminate. Qed.

(** ** The final layer *)

(** C6, as amended.  The final layer applies its stride pre-step to both
    incoming pathways and returns, exactly when the formula does,
    [Conv_same(high', filters) + Upsample2x(Conv_cross(low', filters))] of
    the resulting pair.  On shapes the result has [filters] channels; for a
    pair that satisfies the resolution invariant after the pre-step it has
    the height and width of the pre-stepped high pathway (those of high when
    [strides[0] <= 1], half of them otherwise), and with [same] padding and
    one batch size the call does return it. *)
Theorem C6_final_merges_after_prestep :
  forall filters kernel_size strides padding dilation bias activation,
  (forall (T : Type) (B : KerasBackend T) (low high y : T),
     OctConvFinalLayer.call
       (OctConvFinalLayer.init filters kernel_size strides padding dilation
          bias activation) [low; high] = Ok y <->
     exists low' high',
       Spec.stride_prestep strides low high = Ok (low', high') /\
       Spec.final_merge
         (Spec.options kernel_size padding dilation bias activation)
         low' high' filters = Ok y) /\
  (forall (low high : Shape),
     Spec.resolution_invariant (prestep_shape strides low)
       (prestep_shape strides high) ->
     (forall y,
        OctConvFinalLayer.call
          (OctConvFinalLayer.init filters kernel_size strides padding
             dilation bias activation) [low; high] = Ok y ->
        y = mkShape (batch (prestep_shape strides high))
              (height (prestep_shape strides high))
              (width (prestep_shape strides high)) filters) /\
     (padding = same -> batch high = batch low ->
      exists y,
        OctConvFinalLayer.call
          (OctConvFinalLayer.init filters kernel_size strides padding
             dilation bias activation) [low; high] = Ok y)).
Proof.
intros. split.
- intros. apply final_call_spec.
- intros low high [Hh Hw]. split.
  + intros y Hy. apply final_call_spec in Hy.
    destruct Hy as (low' & high' & Hpre & Hy).
    rewrite stride_prestep_shapes in Hpre. injection Hpre as <- <-.
    apply final_merge_shapes in Hy. cbv zeta in Hy.
    destruct Hy as (Hb & H1 & H2 & ->). f_equal; lia.
  + intros -> Hb. eexists. apply final_call_spec.
    do 2 eexists. split; [apply stride_prestep_shapes | ].
    apply final_merge_shapes. cbv zeta.
    unfold Spec.options. cbn [Spec.padding conv_loss].
    repeat split; try lia.
    unfold prestep_shape. destruct (fst strides >? 1);
      rewrite ?AveragePooling2D_shape_new; cbn [batch]; auto.
Qed.

Lemma C6_witness_default_final :
  Spec.resolution_invariant (prestep_shape (1, 1) low_8x8)
    (prestep_shape (1, 1) high_16x16) /\
  forall y,
    OctConvFinalLayer.call
      (OctConvFinalLayer.init 3 (3, 3) (1, 1) same None false "relu")
      [low_8x8; high_16x16] = Ok y ->
    y = mkShape 1 16 16 3.
Proof.
assert (H : Spec.resolution_invariant (prestep_shape (1, 1) low_8x8)
              (prestep_shape (1, 1) high_16x16)) by (split; reflexivity).
split; [exact H | ].
exact (proj1 (proj2 (C6_final_merges_after_prestep 3 (3, 3) (1, 1) same None
                       false "relu") low_8x8 high_16x16 H)).
Defined.

(** C6 as stated fails for a final layer with [strides=(2, 2)]: on the pair
    (8x8, 16x16) it returns an 8x8 tensor, not one of the resolution of the
    high pathway, and not the tensor of the formula on the incoming pair. *)
Lemma C6_counterexample_strided_final :
  OctConvFinalLayer.call
    (OctConvFinalLayer.init 3 (3, 3) (2, 2) same None false "relu")
    [low_8x8; high_16x16] = Ok (mkShape 1 8 8 3) /\
  Spec.final_merge relu_3x3 low_8x8 high_16x16 3 = Ok (mkShape 1 16 16 3) /\
  height (mkShape 1 8 8 3) <> height high_16x16.
Proof. repeat split; try reflexivity. discriminate. Qed.

(** ** A block with strides (1, 1) keeps the spatial dimensions *)

(** C9.  A block built with [strides=(1, 1)], applied to a pair that
    satisfies the resolution invariant, returns pathways of the height and
    width of the incoming ones; with [same] padding and one batch size it
    does return. *)
Theorem C9_block_stride_1_keeps_dimensions :
  forall filters kernel_size alpha padding dilation bias activation self
    (low high : Shape),
  OctConvBlockLayer.init filters kernel_size (1, 1) alpha padding dilation
    bias activation = Ok self ->
  Spec.resolution_invariant low high ->
  (forall y_low y_high,
     OctConvBlockLayer.call self [low; high] = Ok (y_low, y_high) ->
     height y_low = height low /\ width y_low = width low /\
     height y_high = height high /\ width y_high = width high) /\
  (padding = same -> batch high = batch low ->
   exists y_low y_high,
     OctConvBlockLayer.call self [low; high] = Ok (y_low, y_high)).
Proof.
intros * Hinit [Hh Hw]. apply block_init_inv in Hinit.
destruct Hinit as (k & Hk & ->). split.
- intros y_low y_high Hcall. apply block_call_shapes in Hcall.
  cbv zeta in Hcall. rewrite !prestep_shape_le in Hcall by (cbn; lia).
  destruct Hcall as (Hb & H1 & H2 & H3 & H4 & -> & ->).
  cbn [height width]. lia.
- intros -> Hb. do 2 eexists. apply block_call_shapes. cbv zeta.
  rewrite !prestep_shape_le by (cbn; lia).
  unfold Spec.options. cbn [Spec.padding conv_loss].
  rewrite Hh, Hw. rewrite !(Z.mul_comm 2), !Z.div_mul by lia.
  repeat split; auto; lia.
Qed.

Lemma C9_witness_default_block :
  OctConvBlockLayer.init 64 (3, 3) (1, 1) default_alpha same None false
    "relu" = Ok (block_layout (1, 1) relu_3x3 32 32 32 32) /\
  Spec.resolution_invariant low_8x8 high_16x16 /\
  forall y_low y_high,
    OctConvBlockLayer.call (block_layout (1, 1) relu_3x3 32 32 32 32)
      [low_8x8; high_16x16] = Ok (y_low, y_high) ->
    height y_low = 8 /\ width y_low = 8 /\
    height y_high = 16 /\ width y_high = 16.
Proof.
assert (H : Spec.resolution_invariant low_8x8 high_16x16)
  by (split; reflexivity).
split; [reflexivity | ]. split; [exact H | ].
exact (proj1 (C9_block_stride_1_keeps_dimensions 64 (3, 3) default_alpha same
                None false "relu" (block_layout (1, 1) relu_3x3 32 32 32 32)
                low_8x8 high_16x16 eq_refl H)).
Defined.

(** ** The resolution invariant through [Initial -> Block*] *)

(** C3, as amended.  Take an initial layer with [same] padding and an input
    whose height and width, after the stride pre-step of the layer, are
    even.  Then after every stage of a run of [Initial -> Block*] that
    returns (the initial layer, each block, hence at the input of the final
    layer) the high pathway has exactly twice the height and width of the
    low one; and when no block has a stride pre-step or [valid] padding,
    the run does return. *)
Theorem C3_resolution_invariant_after_every_stage :
  forall filters kernel_size strides alpha dilation bias activation initial
    (blocks : list OctConvBlockLayer.t) (x : Shape),
  OctConvInitialLayer.init filters kernel_size strides alpha same dilation
    bias activation = Ok initial ->
  Forall built_by_init blocks ->
  Z.even (height (prestep_shape strides x)) = true ->
  Z.even (width (prestep_shape strides x)) = true ->
  (forall trace,
     stages initial blocks x = Ok trace -> Forall pair_invariant trace) /\
  (Forall plain_block blocks ->
   exists trace, stages initial blocks x = Ok trace).
Proof.
intros * Hinit Hblocks Hh Hw. apply initial_init_inv in Hinit.
destruct Hinit as (k & Hk & ->). unfold stages.
rewrite initial_call_shapes. cbv zeta. cbn [bind].
unfold Spec.options at 1 2 3 4. cbn [Spec.padding conv_loss].
rewrite !Z.sub_0_r.
set (low := mkShape _ (height _ / 2) _ k).
set (high := mkShape _ (height _) _ (filters - k)).
assert (Hinv : pair_invariant (low, high)).
{ split; cbn; apply even_half; assumption. }
split.
- intros trace Hrun.
  apply bind_Ok in Hrun. destruct Hrun as (rest & Hrest & [= <-]).
  constructor; [exact Hinv | ].
  eapply block_stages_invariant; eassumption.
- intros Hplain.
  destruct (plain_block_stages_return blocks (low, high)) as [rest Hrest];
    auto.
  rewrite Hrest. eexists; reflexivity.
Qed.

Lemma C3_witness_even_image :
  OctConvInitialLayer.init 64 (3, 3) (1, 1) default_alpha same None false
    "relu" = Ok (initial_layout (1, 1) relu_3x3 32 32) /\
  Forall built_by_init [block_layout (1, 1) relu_3x3 32 32 32 32] /\
  forall trace,
    stages (initial_layout (1, 1) relu_3x3 32 32)
      [block_layout (1, 1) relu_3x3 32 32 32 32] image_32x32 = Ok trace ->
    Forall pair_invariant trace.
Proof.
assert (Hb : Forall built_by_init [block_layout (1, 1) relu_3x3 32 32 32 32]).
{ constructor; [ | constructor].
  exists 64, (3, 3), (1, 1), default_alpha, same, None, false, "relu"%string.
  reflexivity. }
split; [reflexivity | ]. split; [exact Hb | ].
exact (proj1 (C3_resolution_invariant_after_every_stage 64 (3, 3) (1, 1)
                default_alpha None false "relu"
                (initial_layout (1, 1) relu_3x3 32 32)
                [block_layout (1, 1) relu_3x3 32 32 32 32] image_32x32
                eq_refl Hb eq_refl eq_refl)).
Defined.

(** C3 as stated fails on a 33x33 image: the default initial layer returns
    the pair (16x16, 33x33), and 33 is not twice 16.  The pair is not
    rejected downstream either: a final layer with [strides=(2, 2)] merges
    it into a 16x16 tensor. *)
Lemma C3_counterexample_odd_image :
  OctConvInitialLayer.init 64 default_kernel_size default_strides
    default_alpha default_padding default_dilation default_bias
    default_activation = Ok (initial_layout (1, 1) relu_3x3 32 32) /\
  stages (initial_layout (1, 1) relu_3x3 32 32) [] image_33x33 =
    Ok [(mkShape 1 16 16 32, mkShape 1 33 33 32)] /\
  ~ Spec.resolution_invariant (mkShape 1 16 16 32) (mkShape 1 33 33 32) /\
  network (initial_layout (1, 1) relu_3x3 32 32) []
    (OctConvFinalLayer.init 3 (3, 3) (2, 2) same None false "relu")
    image_33x33 = Ok (mkShape 1 16 16 3).
Proof.
repeat split; try reflexivity.
intros [H _]. discriminate H.
Qed.

(** ** The order of the pathways *)

(** C7.  On symbolic tensors: the initial layer returns the pair whose
    first component is the low pathway (the convolution [conv2d_high_low]
    of the pooled input) and whose second is the high one; the block and
    the final layer read [inputs[0]] as low (it feeds [conv2d_low_low] and
    [conv2d_low_high]) and [inputs[1]] as high, and raise [IndexError] on
    fewer than two inputs; the block returns (low, high) in this order. *)
Theorem C7_pathway_order :
  forall (initial : OctConvInitialLayer.t) (block : OctConvBlockLayer.t)
    (final : OctConvFinalLayer.t) (x low high : Tensor)
    (rest : list Tensor),
  OctConvInitialLayer.call initial x =
    Ok (Conv2D_out (OctConvInitialLayer.conv2d_high_low initial)
          (AveragePooling2D_out
             (OctConvInitialLayer.average_pooling2d_high_low initial)
             (pooled_if (fst (OctConvInitialLayer.strides initial) >? 1)
                AveragePooling2D.new x)),
        Conv2D_out (OctConvInitialLayer.conv2d_high_high initial)
          (pooled_if (fst (OctConvInitialLayer.strides initial) >? 1)
             AveragePooling2D.new x)) /\
  OctConvBlockLayer.call block (low :: high :: rest) =
    Ok (Add_out
          (Conv2D_out (OctConvBlockLayer.conv2d_low_low block)
             (pooled_if (fst (OctConvBlockLayer.strides block) >? 1)
                (OctConvBlockLayer.average_pooling2d block) low))
          (Conv2D_out (OctConvBlockLayer.conv2d_high_low block)
             (AveragePooling2D_out (OctConvBlockLayer.average_pooling2d block)
                (pooled_if (fst (OctConvBlockLayer.strides block) >? 1)
                   (OctConvBlockLayer.average_pooling2d block) high))),
        Add_out
          (Conv2D_out (OctConvBlockLayer.conv2d_high_high block)
             (pooled_if (fst (OctConvBlockLayer.strides block) >? 1)
                (OctConvBlockLayer.average_pooling2d block) high))
          (UpSampling2D_out (OctConvBlockLayer.upsampling2d block)
             (Conv2D_out (OctConvBlockLayer.conv2d_low_high block)
                (pooled_if (fst (OctConvBlockLayer.strides block) >? 1)
                   (OctConvBlockLayer.average_pooling2d block) low)))) /\
  OctConvFinalLayer.call final (low :: high :: rest) =
    Ok (Add_out
          (Conv2D_out (OctConvFinalLayer.conv2d_high_high final)
             (pooled_if (fst (OctConvFinalLayer.strides final) >? 1)
                (OctConvFinalLayer.average_pooling2d final) high))
          (UpSampling2D_out (OctConvFinalLayer.upsampling2d final)
             (Conv2D_out (OctConvFinalLayer.conv2d_low_high final)
                (pooled_if (fst (OctConvFinalLayer.strides final) >? 1)
                   (OctConvFinalLayer.average_pooling2d final) low)))) /\
  OctConvBlockLayer.call block [low] = Raise IndexError /\
  OctConvFinalLayer.call final [low] = Raise IndexError /\
  OctConvBlockLayer.call block (@nil Tensor) = Raise IndexError /\
  OctConvFinalLayer.call final (@nil Tensor) = Raise IndexError.
Proof.
intros. unfold OctConvInitialLayer.call, OctConvBlockLayer.call,
  OctConvFinalLayer.call, pooled_if.
cbn [getitem nth_error bind].
destruct (fst (OctConvInitialLayer.strides initial) >? 1),
  (fst (OctConvBlockLayer.strides block) >? 1),
  (fst (OctConvFinalLayer.strides final) >? 1);
  repeat split; reflexivity.
Qed.

(** ** The stride pre-step *)

(** C8.  Layers built with [strides = (s0, s1)], on symbolic tensors.
    When the stride is above 1 each layer pools its input once by 2, before
    any convolution: the initial layer its single input, the block and the
    final layer both incoming pathways, with the same pooling; when the
    stride is 1 the convolutions read the inputs as they are.  (The layers
    read the stride of the pair through [strides[0]].) *)
Theorem C8_stride_prestep :
  forall filters kernel_size s0 s1 alpha padding dilation bias activation
    initial block (x low high : Tensor),
  0 < s0 -> 0 < s1 ->
  OctConvInitialLayer.init filters kernel_size (s0, s1) alpha padding
    dilation bias activation = Ok initial ->
  OctConvBlockLayer.init filters kernel_size (s0, s1) alpha padding dilation
    bias activation = Ok block ->
  (1 < s0 ->
   OctConvInitialLayer.call initial x =
     Ok (Conv2D_out (OctConvInitialLayer.conv2d_high_low initial)
           (AveragePooling2D_out AveragePooling2D.new
              (AveragePooling2D_out AveragePooling2D.new x)),
         Conv2D_out (OctConvInitialLayer.conv2d_high_high initial)
           (AveragePooling2D_out AveragePooling2D.new x)) /\
   OctConvBlockLayer.call block [low; high] =
     Ok (Add_out
           (Conv2D_out (OctConvBlockLayer.conv2d_low_low block)
              (AveragePooling2D_out AveragePooling2D.new low))
           (Conv2D_out (OctConvBlockLayer.conv2d_high_low block)
              (AveragePooling2D_out AveragePooling2D.new
                 (AveragePooling2D_out AveragePooling2D.new high))),
         Add_out
           (Conv2D_out (OctConvBlockLayer.conv2d_high_high block)
              (AveragePooling2D_out AveragePooling2D.new high))
           (UpSampling2D_out (UpSampling2D.new "nearest")
              (Conv2D_out (OctConvBlockLayer.conv2d_low_high block)
                 (AveragePooling2D_out AveragePooling2D.new low)))) /\
   OctConvFinalLayer.call
     (OctConvFinalLayer.init filters kernel_size (s0, s1) padding dilation
        bias activation) [low; high] =
     Ok (Add_out
           (Conv2D_out
              (Spec.conv "conv2d_high_high" filters
                 (Spec.options kernel_size padding dilation bias activation))
              (AveragePooling2D_out AveragePooling2D.new high))
           (UpSampling2D_out (UpSampling2D.new "nearest")
              (Conv2D_out
                 (Spec.conv "conv2d_low_high" filters
                    (Spec.options kernel_size padding dilation bias
                       activation))
                 (AveragePooling2D_out AveragePooling2D.new low))))) /\
  (s0 = 1 ->
   OctConvInitialLayer.call initial x =
     Ok (Conv2D_out (OctConvInitialLayer.conv2d_high_low initial)
           (AveragePooling2D_out AveragePooling2D.new x),
         Conv2D_out (OctConvInitialLayer.conv2d_high_high initial) x) /\
   OctConvBlockLayer.call block [low; high] =
     Ok (Add_out
           (Conv2D_out (OctConvBlockLayer.conv2d_low_low block) low)
           (Conv2D_out (OctConvBlockLayer.conv2d_high_low block)
              (AveragePooling2D_out AveragePooling2D.new high)),
         Add_out
           (Conv2D_out (OctConvBlockLayer.conv2d_high_high block) high)
           (UpSampling2D_out (UpSampling2D.new "nearest")
              (Conv2D_out (OctConvBlockLayer.conv2d_low_high block) low))) /\
   OctConvFinalLayer.call
     (OctConvFinalLayer.init filters kernel_size (s0, s1) padding dilation
        bias activation) [low; high] =
     Ok (Add_out
           (Conv2D_out
              (Spec.conv "conv2d_high_high" filters
                 (Spec.options kernel_size padding dilation bias activation))
              high)
           (UpSampling2D_out (UpSampling2D.new "nearest")
              (Conv2D_out
                 (Spec.conv "conv2d_low_high" filters
                    (Spec.options kernel_size padding dilation bias
                       activation))
                 low)))).
Proof.
intros * Hs0 Hs1 Hinitial Hblock.
apply initial_init_inv in Hinitial. destruct Hinitial as (k & Hk & ->).
apply block_init_inv in Hblock. destruct Hblock as (k' & Hk' & ->).
unfold OctConvInitialLayer.call, OctConvBlockLayer.call,
  OctConvFinalLayer.call, OctConvFinalLayer.init, initial_layout,
  block_layout.
cbn [getitem nth_error bind fst OctConvInitialLayer.strides
     OctConvBlockLayer.strides OctConvFinalLayer.strides].
split; intros Hs.
- destruct (Z.gtb_spec s0 1); [ | lia]. repeat split; reflexivity.
- destruct (Z.gtb_spec s0 1); [lia | ]. repeat split; reflexivity.
Qed.

Lemma C8_witness_strided_layers :
  0 < 2 /\ 0 < 2 /\ 1 < 2 /\
  OctConvInitialLayer.call (initial_layout (2, 2) relu_3x3 32 32)
    (Input "x") =
  Ok (Conv2D_out (Spec.conv "conv2d_high_low" 32 relu_3x3)
        (AveragePooling2D_out AveragePooling2D.new
           (AveragePooling2D_out AveragePooling2D.new (Input "x"))),
      Conv2D_out (Spec.conv "conv2d_high_high" 32 relu_3x3)
        (AveragePooling2D_out AveragePooling2D.new (Input "x"))).
Proof.
assert (H0 : 0 < 2) by lia. assert (H1 : 1 < 2) by lia.
repeat (split; [assumption | ]).
exact (proj1 (proj1 (C8_stride_prestep 64 (3, 3) 2 2 default_alpha same None
                       false "relu" (initial_layout (2, 2) relu_3x3 32 32)
                       (block_layout (2, 2) relu_3x3 32 32 32 32)
                       (Input "x") (Input "low") (Input "high")
                       H0 H0 eq_refl eq_refl) H1)).
Defined.

(** ** The channel partition *)


Lemma default_alpha_in_unit_interval : PyFloat.in_unit_interval default_alpha.
Proof.
repeat split; try reflexivity; apply Qle_bool_imp_le; reflexivity.
Defined.






(** C5, as amended.  A block the constructor builds for a positive
    [filters] and an [alpha] in [0, 1] has its two low-target convolutions
    configured with [int(alpha * filters)] filters, the float product
    truncated toward zero, and its two high-target convolutions with
    [filters - int(alpha * filters)]: one count per target pathway. *)
Theorem C5_block_partition_coupled :
  forall filters kernel_size strides alpha padding dilation bias activation
    self,
  0 < filters -> PyFloat.in_unit_interval alpha ->
  OctConvBlockLayer.init filters kernel_size strides alpha padding dilation
    bias activation = Ok self ->
  exists p,
    PyFloat.mul_int alpha filters = Ok p /\
    Conv2D.filters (OctConvBlockLayer.conv2d_low_low self) =
      Qtruncate (PyFloat.to_Q p) /\
    Conv2D.filters (OctConvBlockLayer.conv2d_high_low self) =
      Qtruncate (PyFloat.to_Q p) /\
    Conv2D.filters (OctConvBlockLayer.conv2d_high_high self) =
      filters - Qtruncate (PyFloat.to_Q p) /\
    Conv2D.filters (OctConvBlockLayer.conv2d_low_high self) =
      filters - Qtruncate (PyFloat.to_Q p).
Proof.
intros * Hf Halpha Hinit. apply block_init_inv in Hinit.
destruct Hinit as (k & Hk & ->).
unfold int_alpha_filters in Hk. apply bind_Ok in Hk.
destruct Hk as (p & Hp & Hk).
rewrite PyFloatFacts.int_truncate in Hk
  by (eapply PyFloatFacts.int_Ok_finite; eassumption).
injection Hk as <-. exists p. cbn. auto.
Qed.

Lemma C5_witness_default_block :
  0 < 64 /\ PyFloat.in_unit_interval default_alpha /\
  OctConvBlockLayer.init 64 (3, 3) (1, 1) default_alpha same None false
    "relu" = Ok (block_layout (1, 1) relu_3x3 32 32 32 32) /\
  exists p,
    PyFloat.mul_int default_alpha 64 = Ok p /\
    32 = Qtruncate (PyFloat.to_Q p) /\
    32 = Qtruncate (PyFloat.to_Q p) /\
    32 = 64 - Qtruncate (PyFloat.to_Q p) /\
    32 = 64 - Qtruncate (PyFloat.to_Q p).
Proof.
assert (H : 0 < 64) by lia.
split; [exact H | ]. split; [exact default_alpha_in_unit_interval | ].
split; [reflexivity | ].
exact (C5_block_partition_coupled 64 (3, 3) (1, 1) default_alpha same None
         false "relu" (block_layout (1, 1) relu_3x3 32 32 32 32) H
         default_alpha_in_unit_interval eq_refl).
Defined.

(** C5 as stated fails for the default [alpha = 0.5] and [filters = 3]:
    the product is 1.5, the low-target convolutions have 1 filter and the
    high-target ones 2. *)
Lemma C5_counterexample_half_of_three :
  PyFloat.in_unit_interval default_alpha /\
  OctConvBlockLayer.init 3 default_kernel_size default_strides default_alpha
    default_padding default_dilation default_bias default_activation =
    Ok (block_layout (1, 1) relu_3x3 2 2 1 1) /\
  PyFloat.mul_int default_alpha 3 = Ok (PyFloat.dyadic 3 (-1)) /\
  (PyFloat.to_Q (PyFloat.dyadic 3 (-1)) == 3 # 2)%Q /\
  ~ (inject_Z 1 == PyFloat.to_Q (PyFloat.dyadic 3 (-1)))%Q /\
  ~ (inject_Z 2 == inject_Z 3 - PyFloat.to_Q (PyFloat.dyadic 3 (-1)))%Q.
Proof.
split; [exact default_alpha_in_unit_interval | ].
repeat split; try reflexivity; intros H; discriminate H.
Qed.

(** ** No validation of alpha *)




(** ** Worked examples *)

(** The scenario of the specification's section 8: a 32x32 image with 3
    channels, [filters=64] and [alpha=0.5] throughout, a final layer with 3
    filters. *)
Example end_to_end_scenario :
  stages (initial_layout (1, 1) relu_3x3 32 32)
    [block_layout (1, 1) relu_3x3 32 32 32 32] image_32x32 =
    Ok [(mkShape 1 16 16 32, mkShape 1 32 32 32);
        (mkShape 1 16 16 32, mkShape 1 32 32 32)] /\
  network (initial_layout (1, 1) relu_3x3 32 32)
    [block_layout (1, 1) relu_3x3 32 32 32 32]
    (OctConvFinalLayer.init 3 (3, 3) (1, 1) same None false "relu")
    image_32x32 = Ok (mkShape 1 32 32 3).
Proof. split; reflexivity. Qed.

(** A block with [strides=(2, 2)] halves both pathways and keeps the
    invariant. *)
Example strided_block_halves :
  OctConvBlockLayer.call (block_layout (2, 2) relu_3x3 32 32 32 32)
    [low_8x8; high_16x16] = Ok (mkShape 1 4 4 32, mkShape 1 8 8 32).
Proof. reflexivity. Qed.

(** With [valid] padding and a 3x3 kernel the two addends of the high merge
    differ (14x14 and 12x12): the runtime rejects the sum. *)
Example valid_padding_block_raises :
  OctConvBlockLayer.call
    (block_layout (1, 1) (Spec.options (3, 3) valid None false "relu")
       32 32 32 32) [low_8x8; high_16x16] = Raise ValueError.
Proof. reflexivity. Qed.

(** The product is the rounded one: the double nearest to 1/3, times 3, is
    the double 1.0, although the exact product is below 1. *)
Example int_alpha_filters_rounds_product :
  int_alpha_filters (PyFloat.dyadic 6004799503160661 (-54)) 3 = Ok 1.
Proof. reflexivity. Qed.

Example float_of_large_int_overflows :
  PyFloat.of_int (2 ^ 1024) = Raise OverflowError.
Proof. reflexivity. Qed.

(** * Further properties of the layers *)

(** ** How a call on shapes can fail *)





(** ** Strided blocks *)

(** X1.  A block built with a stride above 1 and [same] padding, given a
    pair that satisfies the resolution invariant, shares its batch size and
    whose low pathway has an even height and width, returns both pathways
    at half their height and width, with [int(alpha * filters)] low and
    [filters - int(alpha * filters)] high channels. *)
Theorem X1_strided_block_halves_both_pathways :
  forall filters kernel_size strides alpha dilation bias activation self
    (low high : Shape),
  OctConvBlockLayer.init filters kernel_size strides alpha same dilation
    bias activation = Ok self ->
  1 < fst strides ->
  Spec.resolution_invariant low high -> batch high = batch low ->
  Z.even (height low) = true -> Z.even (width low) = true ->
  exists k,
    int_alpha_filters alpha filters = Ok k /\
    OctConvBlockLayer.call self [low; high] =
      Ok (mkShape (batch low) (height low / 2) (width low / 2) k,
          mkShape (batch high) (height high / 2) (width high / 2)
            (filters - k)).
Proof.
intros * Hinit Hs [Hh Hw] Hb Eh Ew. apply block_init_inv in Hinit.
destruct Hinit as (k & Hk & ->). exists k. split; [exact Hk | ].
apply block_call_shapes. cbv zeta.
rewrite !prestep_shape_gt by assumption.
rewrite !AveragePooling2D_shape_new. cbn [batch height width].
unfold Spec.options. cbn [Spec.padding conv_loss].
apply even_half in Eh, Ew. rewrite Hh, Hw.
rewrite !(Z.mul_comm 2 (height low)), !(Z.mul_comm 2 (width low)).
rewrite !Z.div_mul by lia.
repeat split; try lia; f_equal; lia.
Qed.

Lemma X1_witness_strided_block :
  OctConvBlockLayer.init 64 (3, 3) (2, 2) default_alpha same None false
    "relu" = Ok (block_layout (2, 2) relu_3x3 32 32 32 32) /\
  1 < fst (2, 2) /\
  Spec.resolution_invariant low_8x8 high_16x16 /\
  exists k,
    int_alpha_filters default_alpha 64 = Ok k /\
    OctConvBlockLayer.call (block_layout (2, 2) relu_3x3 32 32 32 32)
      [low_8x8; high_16x16] =
      Ok (mkShape (batch low_8x8) (height low_8x8 / 2) (width low_8x8 / 2) k,
          mkShape (batch high_16x16) (height high_16x16 / 2)
            (width high_16x16 / 2) (64 - k)).
Proof.
assert (Hs : 1 < fst (2, 2)) by (cbn; lia).
assert (Hi : Spec.resolution_invariant low_8x8 high_16x16)
  by (split; reflexivity).
split; [reflexivity | ]. split; [exact Hs | ]. split; [exact Hi | ].
exact (X1_strided_block_halves_both_pathways 64 (3, 3) (2, 2) default_alpha
         None false "relu" (block_layout (2, 2) relu_3x3 32 32 32 32)
         low_8x8 high_16x16 eq_refl Hs Hi eq_refl eq_refl eq_refl).
Defined.



(** ** [valid] padding *)





(** ** Whole networks on shapes *)

Lemma plain_block_call block (low high : Shape) :
  built_by_init block -> plain_block block ->
  Spec.resolution_invariant low high -> batch high = batch low ->
  exists c_low c_high,
    OctConvBlockLayer.call block [low; high] =
      Ok (mkShape (batch low) (height low) (width low) c_low,
          mkShape (batch high) (height high) (width high) c_high).
Proof.
intros Hb [Hs Hp] [Hh Hw] Hbatch. apply built_block_inv in Hb.
destruct Hb as (strides & o & hh & ll & ->).
cbn [fst snd OctConvBlockLayer.strides OctConvBlockLayer.conv2d_high_high
     Conv2D.padding Spec.conv block_layout] in *.
exists ll, hh. apply block_call_shapes. cbv zeta.
rewrite !prestep_shape_le by assumption.
rewrite Hp. cbn [conv_loss]. rewrite Hh, Hw.
rewrite !(Z.mul_comm 2), !Z.div_mul by lia.
repeat split; try lia; f_equal; lia.
Qed.


Lemma plain_final_call filters kernel_size strides dilation bias activation
  (low high : Shape) :
  fst strides <= 1 ->
  Spec.resolution_invariant low high -> batch high = batch low ->
  OctConvFinalLayer.call
    (OctConvFinalLayer.init filters kernel_size strides same dilation bias
       activation) [low; high] =
  Ok (mkShape (batch high) (height high) (width high) filters).
Proof.
intros Hs [Hh Hw] Hb. apply final_call_spec.
do 2 eexists. split; [apply stride_prestep_shapes | ].
rewrite !prestep_shape_le by assumption.
apply final_merge_shapes. cbv zeta.
unfold Spec.options. cbn [Spec.padding conv_loss].
repeat split; try lia. f_equal; lia.
Qed.


(** Plain blocks keep the extent of both pathways, stage after stage. *)
Lemma plain_block_stages_extent blocks : forall (low high : Shape),
  Forall built_by_init blocks -> Forall plain_block blocks ->
  Spec.resolution_invariant low high -> batch high = batch low ->
  exists trace,
    block_stages blocks (low, high) = Ok trace /\
    Forall (fun pair => same_extent (fst pair) low /\
                        same_extent (snd pair) high) trace.
Proof.
induction blocks as [ | b bs IH]; intros low high Hb Hp Hinv Hbatch;
  cbn [block_stages].
- eexists; split; [reflexivity | constructor].
- inversion Hb; subst. inversion Hp; subst.
  destruct (plain_block_call b low high) as (cl & ch & Hcall); auto.
  unfold as_inputs. cbn [fst snd]. rewrite Hcall. cbn [bind].
  destruct (IH (mkShape (batch low) (height low) (width low) cl)
               (mkShape (batch high) (height high) (width high) ch))
    as (trace & Htrace & Hall); auto.
  rewrite Htrace. cbn [bind]. eexists; split; [reflexivity | ].
  constructor.
  + cbn. repeat split.
  + eapply Forall_impl; [ | exact Hall]. cbn. intros pair H. exact H.
Qed.

Lemma getitem_rev_0 {A : Type} (a : A) (l : list A) :
  exists b, getitem (rev (a :: l)) 0 = Ok b /\ In b (a :: l).
Proof.
assert (H : rev (a :: l) <> []).
{ cbn. intros H. apply app_eq_nil in H. destruct H as [_ H]. discriminate. }
destruct (rev (a :: l)) as [ | b t] eqn:E; [contradiction | ].
exists b. split; [reflexivity | ].
apply in_rev. rewrite E. left. reflexivity.
Qed.

(** X5.  A network [Initial -> Block* -> Final] in which every layer has
    [same] padding and no stride pre-step returns, for every input of even
    height and width, one tensor of the batch size, height and width of the
    input with the [filters] of the final layer as channels, whatever the
    [filters] and [alpha] of the stages before. *)
Theorem X5_plain_network_keeps_extent :
  forall filters kernel_size strides alpha dilation bias activation initial
    blocks f_filters f_kernel_size f_strides f_dilation f_bias f_activation
    (x : Shape),
  OctConvInitialLayer.init filters kernel_size strides alpha same dilation
    bias activation = Ok initial ->
  fst strides <= 1 ->
  Forall built_by_init blocks -> Forall plain_block blocks ->
  fst f_strides <= 1 ->
  Z.even (height x) = true -> Z.even (width x) = true ->
  network initial blocks
    (OctConvFinalLayer.init f_filters f_kernel_size f_strides same
       f_dilation f_bias f_activation) x =
  Ok (mkShape (batch x) (height x) (width x) f_filters).
Proof.
intros * Hinit Hs Hb Hp Hfs Eh Ew. apply initial_init_inv in Hinit.
destruct Hinit as (k & Hk & ->). unfold network, stages.
rewrite initial_call_shapes. cbv zeta. cbn [bind].
rewrite !prestep_shape_le by assumption.
unfold Spec.options at 1 2 3 4. cbn [Spec.padding conv_loss].
rewrite !Z.sub_0_r.
set (low := mkShape (batch x) (height x / 2) (width x / 2) k).
set (high := mkShape (batch x) (height x) (width x) (filters - k)).
assert (Hinv : Spec.resolution_invariant low high)
  by (split; cbn; apply even_half; assumption).
destruct (plain_block_stages_extent blocks low high) as (rest & -> & Hall);
  auto.
cbn [bind].
destruct (getitem_rev_0 (low, high) rest) as ([l h] & -> & Hin).
cbn [bind].
assert (Hext : same_extent l low /\ same_extent h high).
{ destruct Hin as [[= <- <-] | Hin].
  - repeat split.
  - rewrite Forall_forall in Hall. apply (Hall _ Hin). }
destruct Hext as [(Hlb & Hlh & Hlw) (Hhb & Hhh & Hhw)].
unfold as_inputs. cbn [fst snd].
rewrite plain_final_call; try assumption.
- f_equal. rewrite Hhb, Hhh, Hhw. reflexivity.
- destruct Hinv as [H1 H2]. split; congruence.
- rewrite Hlb, Hhb. reflexivity.
Qed.

Lemma X5_witness_scenario :
  Forall built_by_init [block_layout (1, 1) relu_3x3 32 32 32 32] /\
  Forall plain_block [block_layout (1, 1) relu_3x3 32 32 32 32] /\
  network (initial_layout (1, 1) relu_3x3 32 32)
    [block_layout (1, 1) relu_3x3 32 32 32 32]
    (OctConvFinalLayer.init 3 (3, 3) (1, 1) same None false "relu")
    image_32x32 =
  Ok (mkShape (batch image_32x32) (height image_32x32) (width image_32x32)
        3).
Proof.
assert (Hb : Forall built_by_init [block_layout (1, 1) relu_3x3 32 32 32 32]).
{ constructor; [ | constructor].
  exists 64, (3, 3), (1, 1), default_alpha, same, None, false, "relu"%string.
  reflexivity. }
assert (Hp : Forall plain_block [block_layout (1, 1) relu_3x3 32 32 32 32]).
{ constructor; [ | constructor]. split; [cbn; lia | reflexivity]. }
assert (Hs : fst (1, 1) <= 1) by (cbn; lia).
split; [exact Hb | ]. split; [exact Hp | ].
exact (X5_plain_network_keeps_extent 64 (3, 3) (1, 1) default_alpha None
         false "relu" (initial_layout (1, 1) relu_3x3 32 32)
         [block_layout (1, 1) relu_3x3 32 32 32 32] 3 (3, 3) (1, 1) None
         false "relu" image_32x32 eq_refl Hs Hb Hp Hs eq_refl eq_refl).
Defined.



(** ** The value of [int(alpha * filters)] *)

Module PyFloatValues.
Import PyFloat PyFloatFacts.

(** *** Shifts *)






(** *** What the right shift of the rounding computes *)






(** *** Exact roundings *)






(** *** Rounding does not pass a representable bound *)







End PyFloatValues.

(** ** The filter counts the constructors compute *)








(** X10.  [alpha = NaN] makes both constructors raise [ValueError], and an
    infinite [alpha] [OverflowError], for every positive [filters] below
    [2^1000]: the exception of [int], not one of their own. *)
Theorem X10_non_finite_alpha_raises :
  forall filters kernel_size strides padding dilation bias activation,
  0 < filters < 2 ^ 1000 ->
  (OctConvInitialLayer.init filters kernel_size strides S754_nan padding
     dilation bias activation = Raise ValueError /\
   OctConvBlockLayer.init filters kernel_size strides S754_nan padding
     dilation bias activation = Raise ValueError) /\
  (forall s,
     OctConvInitialLayer.init filters kernel_size strides (S754_infinity s)
       padding dilation bias activation = Raise OverflowError /\
     OctConvBlockLayer.init filters kernel_size strides (S754_infinity s)
       padding dilation bias activation = Raise OverflowError).
Proof.
intros * Hf.
destruct (PyFloatFacts.of_int_finite filters Hf) as (mx & ex & Hx & _).
unfold OctConvInitialLayer.init, OctConvBlockLayer.init, int_alpha_filters,
  PyFloat.mul_int.
rewrite Hx. repeat split.
Qed.

Lemma X10_witness_64_filters :
  0 < 64 < 2 ^ 1000 /\
  OctConvInitialLayer.init 64 (3, 3) (1, 1) S754_nan same None false "relu" =
    Raise ValueError.
Proof.
assert (H : 0 < 64 < 2 ^ 1000) by (split; reflexivity).
split; [exact H | ].
exact (proj1 (proj1 (X10_non_finite_alpha_raises 64 (3, 3) (1, 1) same None
                       false "relu" H))).
Defined.

(** ** The pair the initial layer returns *)



(** X12.  With [padding='valid'] and a kernel larger than 1 on the height
    or the width, the pair the initial layer returns satisfies the
    resolution invariant for no input: both convolutions lose the same
    length, at two different resolutions. *)
Theorem X12_valid_initial_breaks_invariant :
  forall filters kernel_size strides alpha dilation bias activation self
    (x low high : Shape),
  OctConvInitialLayer.init filters kernel_size strides alpha valid dilation
    bias activation = Ok self ->
  (1 < fst kernel_size /\ 1 <= fst (dilation_or_default dilation)) \/
  (1 < snd kernel_size /\ 1 <= snd (dilation_or_default dilation)) ->
  OctConvInitialLayer.call self x = Ok (low, high) ->
  ~ Spec.resolution_invariant low high.
Proof.
intros * Hinit Hk Hcall [H1 H2]. apply initial_init_inv in Hinit.
destruct Hinit as (k & _ & ->). rewrite initial_call_shapes in Hcall.
cbv zeta in Hcall. injection Hcall as <- <-.
unfold Spec.options in H1, H2.
cbn [height width Spec.padding Spec.kernel_size Spec.dilation] in H1, H2.
fold (dilation_or_default dilation) in H1, H2.
destruct Hk as [[Hk Hd] | [Hk Hd]].
- set (r := fst kernel_size +
            (fst kernel_size - 1) * (fst (dilation_or_default dilation) - 1)
            - 1) in *.
  assert (1 <= r) by (unfold r; nia).
  pose proof (Z.div_mod (height (prestep_shape strides x)) 2).
  pose proof (Z.mod_pos_bound (height (prestep_shape strides x)) 2).
  lia.
- set (r := snd kernel_size +
            (snd kernel_size - 1) * (snd (dilation_or_default dilation) - 1)
            - 1) in *.
  assert (1 <= r) by (unfold r; nia).
  pose proof (Z.div_mod (width (prestep_shape strides x)) 2).
  pose proof (Z.mod_pos_bound (width (prestep_shape strides x)) 2).
  lia.
Qed.

Lemma X12_witness_valid_initial :
  OctConvInitialLayer.init 64 (3, 3) (1, 1) default_alpha valid None false
    "relu" =
    Ok (initial_layout (1, 1) (Spec.options (3, 3) valid None false "relu")
          32 32) /\
  OctConvInitialLayer.call
    (initial_layout (1, 1) (Spec.options (3, 3) valid None false "relu")
       32 32) image_32x32 = Ok (mkShape 1 14 14 32, mkShape 1 30 30 32) /\
  ~ Spec.resolution_invariant (mkShape 1 14 14 32) (mkShape 1 30 30 32).
Proof.
split; [reflexivity | ]. split; [reflexivity | ].
apply (X12_valid_initial_breaks_invariant 64 (3, 3) (1, 1) default_alpha
         None false "relu"
         (initial_layout (1, 1) (Spec.options (3, 3) valid None false "relu")
            32 32) image_32x32); [reflexivity | | reflexivity].
left. cbn. lia.
Defined.

(** ** Stacks of strided blocks *)

Lemma strided_block_call block (low high : Shape) :
  built_by_init block -> strided_block block ->
  Spec.resolution_invariant low high -> batch high = batch low ->
  Z.even (height low) = true -> Z.even (width low) = true ->
  exists c_low c_high,
    OctConvBlockLayer.call block [low; high] =
      Ok (mkShape (batch low) (height low / 2) (width low / 2) c_low,
          mkShape (batch high) (height high / 2) (width high / 2) c_high).
Proof.
intros Hb [Hs Hp] [Hh Hw] Hbatch Eh Ew. apply built_block_inv in Hb.
destruct Hb as (strides & o & hh & ll & ->).
cbn [fst snd OctConvBlockLayer.strides OctConvBlockLayer.conv2d_high_high
     Conv2D.padding Spec.conv block_layout] in *.
exists ll, hh. apply block_call_shapes. cbv zeta.
rewrite !prestep_shape_gt by assumption.
rewrite !AveragePooling2D_shape_new. cbn [batch height width].
rewrite Hp. cbn [conv_loss].
apply even_half in Eh, Ew. rewrite Hh, Hw.
rewrite !(Z.mul_comm 2 (height low)), !(Z.mul_comm 2 (width low)).
rewrite !Z.div_mul by lia.
repeat split; try lia; f_equal; lia.
Qed.

Lemma divide_pow2_succ n l :
  (2 ^ Z.of_nat (S n) | l) ->
  Z.even l = true /\ (2 ^ Z.of_nat n | l / 2).
Proof.
intros [q Hq]. rewrite Nat2Z.inj_succ, Z.pow_succ_r in Hq by lia.
assert (Hl : l = (q * 2 ^ Z.of_nat n) * 2) by lia.
split.
- apply Z.even_spec. exists (q * 2 ^ Z.of_nat n). lia.
- exists q. rewrite Hl, Z.div_mul by lia. reflexivity.
Qed.

(** X13.  A stack of [n] blocks with [same] padding and a stride above 1,
    given a pair that satisfies the resolution invariant and whose low
    pathway has a height and a width divisible by [2^n], returns after its
    [i]-th block (counting from 0) both pathways at their height and width
    divided by [2^(i+1)]. *)
Theorem X13_strided_stack_divides_by_powers_of_two :
  forall blocks (low high : Shape),
  Forall built_by_init blocks -> Forall strided_block blocks ->
  Spec.resolution_invariant low high -> batch high = batch low ->
  (2 ^ Z.of_nat (List.length blocks) | height low) ->
  (2 ^ Z.of_nat (List.length blocks) | width low) ->
  exists trace,
    block_stages blocks (low, high) = Ok trace /\
    List.length trace = List.length blocks /\
    forall i pair,
      nth_error trace i = Some pair ->
      height (fst pair) = height low / 2 ^ Z.of_nat (S i) /\
      width (fst pair) = width low / 2 ^ Z.of_nat (S i) /\
      height (snd pair) = height high / 2 ^ Z.of_nat (S i) /\
      width (snd pair) = width high / 2 ^ Z.of_nat (S i).
Proof.
induction blocks as [ | b bs IH]; intros low high Hb Hs Hinv Hbatch Dh Dw;
  cbn [block_stages].
- exists []. repeat split; destruct i; discriminate.
- inversion Hb; subst. inversion Hs; subst. cbn [List.length] in Dh, Dw.
  apply divide_pow2_succ in Dh, Dw.
  destruct Dh as [Eh Dh], Dw as [Ew Dw].
  destruct (strided_block_call b low high) as (cl & ch & Hcall); auto.
  unfold as_inputs. cbn [fst snd]. rewrite Hcall. cbn [bind].
  destruct Hinv as [Hh Hw].
  assert (Hh2 : height high / 2 = height low)
    by (rewrite Hh, Z.mul_comm, Z.div_mul by lia; reflexivity).
  assert (Hw2 : width high / 2 = width low)
    by (rewrite Hw, Z.mul_comm, Z.div_mul by lia; reflexivity).
  destruct (IH (mkShape (batch low) (height low / 2) (width low / 2) cl)
               (mkShape (batch high) (height high / 2) (width high / 2) ch))
    as (trace & Htrace & Hlen & Hnth); auto.
  { split; cbn [height width]; rewrite ?Hh2, ?Hw2; apply even_half;
      assumption. }
  rewrite Htrace. cbn [bind]. eexists. split; [reflexivity | ].
  split; [cbn [List.length]; congruence | ].
  intros [ | i] p Hpair; cbn [nth_error] in Hpair.
  + injection Hpair as <-. cbn [fst snd height width].
    change (2 ^ Z.of_nat 1) with 2. auto.
  + specialize (Hnth i p Hpair). cbn [height width] in Hnth.
    rewrite !Z.div_div in Hnth by (try apply Z.pow_pos_nonneg; lia).
    rewrite (Nat2Z.inj_succ (S i)), Z.pow_succ_r by lia. exact Hnth.
Qed.

Lemma X13_witness_two_strided_blocks :
  Forall built_by_init [block_layout (2, 2) relu_3x3 32 32 32 32;
                        block_layout (2, 2) relu_3x3 32 32 32 32] /\
  Forall strided_block [block_layout (2, 2) relu_3x3 32 32 32 32;
                        block_layout (2, 2) relu_3x3 32 32 32 32] /\
  Spec.resolution_invariant low_8x8 high_16x16 /\
  exists trace,
    block_stages [block_layout (2, 2) relu_3x3 32 32 32 32;
                  block_layout (2, 2) relu_3x3 32 32 32 32]
      (low_8x8, high_16x16) = Ok trace /\
    List.length trace = 2%nat /\
    forall i pair,
      nth_error trace i = Some pair ->
      height (fst pair) = height low_8x8 / 2 ^ Z.of_nat (S i) /\
      width (fst pair) = width low_8x8 / 2 ^ Z.of_nat (S i) /\
      height (snd pair) = height high_16x16 / 2 ^ Z.of_nat (S i) /\
      width (snd pair) = width high_16x16 / 2 ^ Z.of_nat (S i).
Proof.
assert (Hb1 : built_by_init (block_layout (2, 2) relu_3x3 32 32 32 32)).
{ exists 64, (3, 3), (2, 2), default_alpha, same, None, false, "relu"%string.
  reflexivity. }
assert (Hs1 : strided_block (block_layout (2, 2) relu_3x3 32 32 32 32))
  by (split; [cbn; lia | reflexivity]).
assert (Hb : Forall built_by_init
               [block_layout (2, 2) relu_3x3 32 32 32 32;
                block_layout (2, 2) relu_3x3 32 32 32 32])
  by (repeat constructor; exact Hb1).
assert (Hs : Forall strided_block
               [block_layout (2, 2) relu_3x3 32 32 32 32;
                block_layout (2, 2) relu_3x3 32 32 32 32])
  by (repeat constructor; exact Hs1).
assert (Hi : Spec.resolution_invariant low_8x8 high_16x16)
  by (split; reflexivity).
assert (Hd : (2 ^ Z.of_nat 2 | 8)) by (exists 2; reflexivity).
split; [exact Hb | ]. split; [exact Hs | ]. split; [exact Hi | ].
exact (X13_strided_stack_divides_by_powers_of_two
         [block_layout (2, 2) relu_3x3 32 32 32 32;
          block_layout (2, 2) relu_3x3 32 32 32 32]
         low_8x8 high_16x16 Hb Hs Hi eq_refl Hd Hd).
Defined.

(** ** An int beyond the range of a double *)

(** X14.  For a [filters] of [2^1024] or more both constructors raise
    [OverflowError], whatever [alpha] is: the int cannot be converted to
    multiply it by a float. *)
Theorem X14_huge_filters_overflow :
  forall filters kernel_size strides alpha padding dilation bias activation,
  2 ^ 1024 <= filters ->
  OctConvInitialLayer.init filters kernel_size strides alpha padding dilation
    bias activation = Raise OverflowError /\
  OctConvBlockLayer.init filters kernel_size strides alpha padding dilation
    bias activation = Raise OverflowError.
Proof.
intros * Hf.
assert (Hx : PyFloat.of_int filters = Raise OverflowError).
{ destruct filters as [ | p | p]; try lia.
  unfold PyFloat.of_int, binary_normalize, binary_round, shl_align.
  assert (Hd : 1025 <= Zdigits2 (Zpos p)).
  { rewrite PyFloatFacts.Zdigits2_log2.
    apply Z.log2_le_pow2 in Hf; lia. }
  cbn [Zdigits2] in Hd. set (d := Zpos (digits2_pos p)) in *.
  assert (Hf1 : fexp PyFloat.prec PyFloat.emax (d + 0) - 0 = d - 53)
    by (unfold fexp, emin, PyFloat.prec, PyFloat.emax; lia).
  rewrite Hf1. destruct (d - 53) as [ | k | k] eqn:Ek; try lia.
  unfold binary_round_aux, shr_fexp. cbn [Zdigits2]. fold d.
  replace (fexp PyFloat.prec PyFloat.emax (d + 0) - 0) with (d - 53)
    by (unfold fexp, emin, PyFloat.prec, PyFloat.emax; lia).
  set (r0 := shr_record_of_loc (Zpos p) loc_Exact).
  destruct (PyFloatFacts.shr_digits r0 0 (d - 53)) as (H1 & E1 & D1);
    [cbn; lia | ].
  destruct (shr r0 0 (d - 53)) as [mrs' e']. cbn [fst snd] in H1, E1, D1.
  change (shr_m r0) with (Zpos p) in D1. cbn [Zdigits2] in D1. fold d in D1.
  set (m2 := round_nearest_even (shr_m mrs') (loc_of_shr_record mrs')).
  pose proof (PyFloatFacts.round_nearest_even_bounds (shr_m mrs')
                (loc_of_shr_record mrs')) as Hm2. fold m2 in Hm2.
  assert (D2 : Zdigits2 (shr_m mrs') <= Zdigits2 m2)
    by (apply PyFloatFacts.Zdigits2_mono; lia).
  assert (D2' : Zdigits2 m2 <= Zdigits2 (shr_m mrs') + 1).
  { etransitivity;
      [apply (PyFloatFacts.Zdigits2_mono m2 (shr_m mrs' + 1)); lia | ].
    apply PyFloatFacts.Zdigits2_succ; assumption. }
  set (n2 := fexp PyFloat.prec PyFloat.emax (Zdigits2 m2 + e') - e').
  destruct (PyFloatFacts.shr_digits (shr_record_of_loc m2 loc_Exact) e' n2)
    as (H3 & E3 & D3); [cbn; lia | ].
  destruct (shr (shr_record_of_loc m2 loc_Exact) e' n2) as [mrs'' e''].
  cbn [fst snd] in H3, E3, D3. cbn [shr_record_of_loc shr_m] in D3.
  unfold n2, fexp, emin, PyFloat.prec, PyFloat.emax in *.
  assert (Hpos3 : 0 < Zdigits2 (shr_m mrs'')) by lia.
  destruct (shr_m mrs'') as [ | m3 | m3]; cbn in Hpos3; try lia.
  destruct (Z.leb_spec e'' (1024 - 53)); [lia | reflexivity]. }
unfold OctConvInitialLayer.init, OctConvBlockLayer.init, int_alpha_filters,
  PyFloat.mul_int.
rewrite Hx. split; reflexivity.
Qed.

Lemma X14_witness_two_to_1024 :
  2 ^ 1024 <= 2 ^ 1024 /\
  OctConvInitialLayer.init (2 ^ 1024) (3, 3) (1, 1) default_alpha same None
    false "relu" = Raise OverflowError.
Proof.
assert (H : 2 ^ 1024 <= 2 ^ 1024) by lia.
split; [exact H | ].
exact (proj1 (X14_huge_filters_overflow (2 ^ 1024) (3, 3) (1, 1)
                default_alpha same None false "relu" H)).
Defined.
